(** * STRIDE GPT: prompt builders, response interpreters and the three
      generation handlers of [main.py]

    The development embeds the Python script shallowly.  Python [str]
    values are sequences of Unicode code points; the session dictionary is
    a finite map; the handlers run in a small state-and-exception monad
    whose state holds [st.session_state] and the elements written to the
    page.  The chat-completion service, [json.loads] and the interpreter's
    [str()] of non-string values are not code of this repository: they
    enter as parameters. *)

From Stdlib Require Import ZArith NArith String Ascii.
From Stdlib Require Import Floats.SpecFloat DecimalString.
From stdpp Require Import base list gmap.

Local Open Scope N_scope.

(** ** Text *)

(** A character is a Unicode code point, a Python [str] a list of them. *)
Definition char : Type := N.
Definition str : Type := list char.

(** ASCII literals of the source. *)
Definition lit (s : string) : str :=
  List.map N_of_ascii (list_ascii_of_string s).

Definition nl : char := 10.
Definition dquote : char := 34.
Definition squote : char := 39.
Definition backtick : char := 96.

(** A literal between double quotes, as it appears inside the prompts. *)
Definition quoted (s : string) : str := dquote :: lit s ++ [dquote].

Definition str_eqb (a b : str) : bool := bool_decide (a = b).

(** [s.startswith(p)], returning what follows the prefix. *)
Fixpoint strip_prefix (p s : str) : option str :=
  match p, s with
  | [], _ => Some s
  | _ :: _, [] => None
  | a :: p', b :: s' => if a =? b then strip_prefix p' s' else None
  end.

(** ** The regular expression of [get_attack_tree]

    [re.sub(r'^```mermaid\s*|\s*```$', '', text, flags=re.MULTILINE)]. *)
Module Regex.

(** [\s] on a [str] pattern is [str.isspace] of the code point. *)
Definition is_space (c : char) : bool :=
  ((9 <=? c) && (c <=? 13)) || ((28 <=? c) && (c <=? 32))
  || (c =? 133) || (c =? 160) || (c =? 5760)
  || ((8192 <=? c) && (c <=? 8202))
  || (c =? 8232) || (c =? 8233) || (c =? 8239) || (c =? 8287)
  || (c =? 12288).

(** Length of the longest run of whitespace at the head: greedy [\s*]. *)
Fixpoint space_run (s : str) : nat :=
  match s with
  | c :: t => if is_space c then S (space_run t) else O
  | [] => O
  end.

Definition fence_open : str := lit "```mermaid".
Definition fence_close : str := lit "```".

(** [^] under MULTILINE: at the start of the text or just after a line
    feed.  [prev] is the character before the position, if any. *)
Definition at_bol (prev : option char) : bool :=
  match prev with
  | None => true
  | Some c => c =? nl
  end.

(** [$] under MULTILINE: at the end of the text or just before a line
    feed. *)
Definition at_eol (s : str) : bool :=
  match s with
  | [] => true
  | c :: _ => c =? nl
  end.

(** First alternative, [^```mermaid\s*]: number of characters matched. *)
Definition match_open (prev : option char) (s : str) : option nat :=
  if at_bol prev then
    match strip_prefix fence_open s with
    | Some r => Some (length fence_open + space_run r)%nat
    | None => None
    end
  else None.

(** Second alternative, [\s*```$].  The greedy run cannot give a
    character back: the next thing to match is a backtick, which is not
    whitespace. *)
Definition match_close (s : str) : option nat :=
  let k := space_run s in
  match strip_prefix fence_close (drop k s) with
  | Some r => if at_eol r then Some (k + length fence_close)%nat else None
  | None => None
  end.

(** The alternation tries the alternatives in order. *)
Definition match_at (prev : option char) (s : str) : option nat :=
  match match_open prev s with
  | Some n => Some n
  | None => match_close s
  end.

(** The character before the position reached after consuming [n]
    characters of [s]. *)
Definition prev_after (prev : option char) (n : nat) (s : str) : option char :=
  match last (take n s) with
  | Some c => Some c
  | None => prev
  end.

(** The scan of [re.sub] with the empty replacement: at each position a
    match is dropped and the scan resumes after it, otherwise the
    character is copied.  Every match is replaced ([count] is left at
    its default).  [fuel] bounds the number of positions visited. *)
Fixpoint sub_loop (fuel : nat) (prev : option char) (s : str) : str :=
  match fuel with
  | O => s
  | S fuel' =>
      match match_at prev s with
      | Some n => sub_loop fuel' (prev_after prev n s) (drop n s)
      | None =>
          match s with
          | [] => []
          | c :: t => c :: sub_loop fuel' (Some c) t
          end
      end
  end.

Definition sub (s : str) : str := sub_loop (length s) None s.

End Regex.

(** ** Python values *)

(** What [json.loads] can return, which is also all that the script ever
    stores under ['threat_model'].  A [dict] keeps its insertion order,
    which [for] observes; [json.loads] yields no duplicate key and lookup
    takes the first binding. *)
#[warnings="-register-all"]
Inductive pyval : Type :=
| VNone
| VBool (b : bool)
| VInt (z : Z)
| VFloat (f : spec_float)
| VStr (s : str)
| VList (l : list pyval)
| VDict (d : list (str * pyval)).

(** [bool(v)], the test made by [if] and [and]. *)
Definition truthy (v : pyval) : bool :=
  match v with
  | VNone => false
  | VBool b => b
  | VInt z => negb (z =? 0)%Z
  | VFloat (S754_zero _) => false
  | VFloat _ => true
  | VStr s => negb (bool_decide (s = []))
  | VList l => negb (bool_decide (length l = O))
  | VDict d => negb (bool_decide (length d = O))
  end.

Fixpoint assoc (k : str) (d : list (str * pyval)) : option pyval :=
  match d with
  | [] => None
  | (k', v) :: d' => if str_eqb k k' then Some v else assoc k d'
  end.

(** ** Exceptions *)

Inductive exn : Type :=
| KeyError (key : str)
| TypeError_not_iterable (v : pyval)
| TypeError_index (v : pyval)
| AttributeError_get (v : pyval)
| NameError (name : str)
| Raised (msg : str).

Inductive res (A : Type) : Type :=
| Ok (a : A)
| Raise (e : exn).
Arguments Ok {A} a.
Arguments Raise {A} e.

#[global] Instance res_ret : MRet res := fun A a => Ok a.
#[global] Instance res_bind : MBind res := fun A B f m =>
  match m with
  | Ok a => f a
  | Raise e => Raise e
  end.

(** [repr] of a [str] that holds no quote, backslash or unprintable
    character: the only strings it is applied to are literals of the
    script. *)
Definition repr_plain (s : str) : str := squote :: s ++ [squote].

(** [v[key]] for a [str] key. *)
Definition subscript (v : pyval) (key : str) : res pyval :=
  match v with
  | VDict d =>
      match assoc key d with
      | Some x => Ok x
      | None => Raise (KeyError key)
      end
  | _ => Raise (TypeError_index v)
  end.

(** [v.get(key, default)]: only a [dict] has the method. *)
Definition get (v : pyval) (key : str) (default : pyval) : res pyval :=
  match v with
  | VDict d => Ok (from_option id default (assoc key d))
  | _ => Raise (AttributeError_get v)
  end.

(** The items a [for] loop visits. *)
Definition iterate (v : pyval) : res (list pyval) :=
  match v with
  | VList l => Ok l
  | VDict d => Ok (List.map (fun kv => VStr (fst kv)) d)
  | VStr s => Ok (List.map (fun c => VStr [c]) s)
  | _ => Raise (TypeError_not_iterable v)
  end.

Definition key_threat_type : str := lit "Threat Type".
Definition key_scenario : str := lit "Scenario".
Definition key_potential_impact : str := lit "Potential Impact".

Section Interpreter.

(** [str(v)] of a value that is not a [str], and the wording of the
    errors the interpreter raises by itself: both belong to Python. *)
Variable py_str : pyval -> str.
Variable interp_msg : exn -> str.

(** A replacement field [{v}] of an f-string. *)
Definition fmt (v : pyval) : str :=
  match v with
  | VStr s => s
  | _ => py_str v
  end.

(** [str(e)], as interpolated by [f"...: {e}"]. *)
Definition exn_str (e : exn) : str :=
  match e with
  | KeyError k => repr_plain k
  | Raised m => m
  | _ => interp_msg e
  end.

(** *** [json_to_markdown] *)

(** One pass of the first loop body: the three lookups are made left to
    right, then the row is appended. *)
Definition threat_row (threat : pyval) : res str :=
  a ← subscript threat key_threat_type;
  b ← subscript threat key_scenario;
  c ← subscript threat key_potential_impact;
  mret (lit "| " ++ fmt a ++ lit " | " ++ fmt b ++ lit " | " ++ fmt c
          ++ lit " |" ++ [nl]).

Fixpoint threat_rows (markdown_output : str) (threats : list pyval) : res str :=
  match threats with
  | [] => mret markdown_output
  | threat :: rest =>
      row ← threat_row threat;
      threat_rows (markdown_output ++ row) rest
  end.

Fixpoint suggestion_lines (markdown_output : str) (suggestions : list pyval) : str :=
  match suggestions with
  | [] => markdown_output
  | suggestion :: rest =>
      suggestion_lines (markdown_output ++ lit "- " ++ fmt suggestion ++ [nl]) rest
  end.

Definition table_header : str :=
  lit "## Threat Model" ++ [nl; nl]
  ++ lit "| Threat Type | Scenario | Potential Impact |" ++ [nl]
  ++ lit "|-------------|----------|------------------|" ++ [nl].

Definition json_to_markdown (threat_model improvement_suggestions : pyval) : res str :=
  let markdown_output := table_header in
  threats ← iterate threat_model;
  markdown_output ← threat_rows markdown_output threats;
  let markdown_output :=
    markdown_output ++ [nl; nl] ++ lit "## Improvement Suggestions" ++ [nl; nl] in
  suggestions ← iterate improvement_suggestions;
  mret (suggestion_lines markdown_output suggestions).

End Interpreter.

(** ** The application profile *)

(** The options of the select boxes and of the multi-select, with the
    labels the widgets return. *)
Inductive app_kind :=
  WebApplication | MobileApplication | DesktopApplication | CloudApplication
| IoTApplication | OtherApplication.

Inductive sensitivity :=
  TopSecret | Secret | Confidential | Restricted | Unclassified | NoSensitiveData.

Inductive yes_no := Yes | No.

Inductive auth_method := SSO | MFA | OAUTH2 | Basic | NoAuth.

Definition app_kind_label (k : app_kind) : str :=
  match k with
  | WebApplication => lit "Web application"
  | MobileApplication => lit "Mobile application"
  | DesktopApplication => lit "Desktop application"
  | CloudApplication => lit "Cloud application"
  | IoTApplication => lit "IoT application"
  | OtherApplication => lit "Other"
  end.

Definition sensitivity_label (s : sensitivity) : str :=
  match s with
  | TopSecret => lit "Top Secret"
  | Secret => lit "Secret"
  | Confidential => lit "Confidential"
  | Restricted => lit "Restricted"
  | Unclassified => lit "Unclassified"
  | NoSensitiveData => lit "None"
  end.

Definition yes_no_label (b : yes_no) : str :=
  match b with
  | Yes => lit "Yes"
  | No => lit "No"
  end.

Definition auth_label (a : auth_method) : str :=
  match a with
  | SSO => lit "SSO"
  | MFA => lit "MFA"
  | OAUTH2 => lit "OAUTH2"
  | Basic => lit "Basic"
  | NoAuth => lit "None"
  end.

(** [", ".join(items)]. *)
Fixpoint join_comma (items : list str) : str :=
  match items with
  | [] => []
  | [x] => x
  | x :: rest => x ++ lit ", " ++ join_comma rest
  end.

(** [str(authentication)]: the multi-select returns a [list] of labels,
    which an f-string prints as the bracketed [repr] of its items. *)
Definition auth_list_str (authentication : list auth_method) : str :=
  lit "[" ++ join_comma (List.map (fun a => repr_plain (auth_label a)) authentication)
  ++ lit "]".

(** The six labelled lines shared by the first two prompts. *)
Definition profile_lines (app_type : str) (authentication : list auth_method)
    (internet_facing sensitive_data pam app_input : str) : str :=
  lit "APPLICATION TYPE: " ++ app_type ++ [nl]
  ++ lit "AUTHENTICATION METHODS: " ++ auth_list_str authentication ++ [nl]
  ++ lit "INTERNET FACING: " ++ internet_facing ++ [nl]
  ++ lit "SENSITIVE DATA: " ++ sensitive_data ++ [nl]
  ++ lit "PRIVILEGED ACCESS MANAGEMENT: " ++ pam ++ [nl]
  ++ lit "APPLICATION DESCRIPTION: " ++ app_input ++ [nl].

Definition threat_model_preamble : str :=
  [nl]
  ++ lit "Act as a cyber security expert with more than 20 years experience of using the STRIDE threat modelling methodology to produce comprehensive threat models for a wide range of applications. Your task is to use the application description provided to you to produce a list of specific threats for the application. Your analysis should provide a credible scenario in which each threat could occur in the context of the application. It is very important that your responses are tailored to reflect the details you are given." ++ [nl]
  ++ [nl]
  ++ lit "When providing the threat model, use a JSON formatted response with the keys " ++ quoted "threat_model" ++ lit " and " ++ quoted "improvement_suggestions" ++ lit ". Under " ++ quoted "threat_model" ++ lit ", include an array of objects with the keys " ++ quoted "Threat Type" ++ lit ", " ++ quoted "Scenario" ++ lit ", and " ++ quoted "Potential Impact" ++ lit ". " ++ [nl]
  ++ [nl]
  ++ lit "Under " ++ quoted "improvement_suggestions" ++ lit ", include an array of strings with suggestions on how the threat modeller can improve their application description in order to allow the tool to produce a more comprehensive threat model." ++ [nl]
  ++ [nl].

Definition threat_model_example : str :=
  [nl]
  ++ lit "Example of expected JSON response format:" ++ [nl]
  ++ lit "  " ++ [nl]
  ++ lit "    {" ++ [nl]
  ++ lit "      " ++ quoted "threat_model" ++ lit ": [" ++ [nl]
  ++ lit "        {" ++ [nl]
  ++ lit "          " ++ quoted "Threat Type" ++ lit ": " ++ quoted "Example Threat Type" ++ lit "," ++ [nl]
  ++ lit "          " ++ quoted "Scenario" ++ lit ": " ++ quoted "Example Scenario" ++ lit "," ++ [nl]
  ++ lit "          " ++ quoted "Potential Impact" ++ lit ": " ++ quoted "Example Potential Impact" ++ [nl]
  ++ lit "        }" ++ [nl]
  ++ lit "        // ... more threats" ++ [nl]
  ++ lit "      ]," ++ [nl]
  ++ lit "      " ++ quoted "improvement_suggestions" ++ lit ": [" ++ [nl]
  ++ lit "        " ++ quoted "Example improvement suggestion." ++ lit "," ++ [nl]
  ++ lit "        // ... more suggestions" ++ [nl]
  ++ lit "      ]" ++ [nl]
  ++ lit "    }" ++ [nl].

Definition create_threat_model_prompt (app_type : str)
    (authentication : list auth_method)
    (internet_facing sensitive_data pam app_input : str) : str :=
  threat_model_preamble
  ++ profile_lines app_type authentication internet_facing sensitive_data pam app_input
  ++ threat_model_example.

Definition attack_tree_preamble : str :=
  [nl]
  ++ lit "Act as a cyber security expert with more than 20 years experience of using the STRIDE threat modelling methodology to produce comprehensive threat models for a wide range of applications. Your task is to use the application description provided to you to produce an attack tree in Mermaid syntax. The attack tree should reflect the potential threats for the application based on the details given." ++ [nl]
  ++ [nl].

Definition create_attack_tree_prompt (app_type : str)
    (authentication : list auth_method)
    (internet_facing sensitive_data pam app_input : str) : str :=
  attack_tree_preamble
  ++ profile_lines app_type authentication internet_facing sensitive_data pam app_input
  ++ [nl]
  ++ lit "Please provide the attack tree in Mermaid syntax as your response." ++ [nl].

Definition create_mitigations_prompt (threats : str) : str :=
  [nl]
  ++ lit "Act as a cyber security expert with more than 20 years experience of using the STRIDE threat modelling methodology. Your task is to provide potential mitigations for the threats identified in the threat model. It is very important that your responses are tailored to reflect the details of the threats." ++ [nl]
  ++ [nl]
  ++ lit "Your output should be in the form of a markdown table with the following columns:" ++ [nl]
  ++ lit "    - Column A: Threat Type" ++ [nl]
  ++ lit "    - Column B: Scenario" ++ [nl]
  ++ lit "    - Column C: Suggested Mitigation(s)" ++ [nl]
  ++ [nl]
  ++ lit "Below is the list of identified threats:" ++ [nl]
  ++ threats ++ [nl]
  ++ [nl]
  ++ lit "YOUR RESPONSE:" ++ [nl].

(** The system messages of the three requests. *)
Definition threat_model_system : str :=
  lit "You are a helpful assistant designed to output JSON.".

Definition attack_tree_system : str :=
  [nl]
  ++ lit "You are a helpful assistant that creates Attack Trees using Mermaid syntax. Here is an example of a syntactically correct Mermaid diagram:" ++ [nl]
  ++ [nl]
  ++ lit "```mermaid" ++ [nl]
  ++ lit "graph TD" ++ [nl]
  ++ lit "    A[Enter Chart Definition] --> B(Preview)" ++ [nl]
  ++ lit "    B --> C{{decide}}" ++ [nl]
  ++ lit "    C --> D[Keep]" ++ [nl]
  ++ lit "    C --> E[" ++ quoted "Edit Definition (Edit)" ++ lit "]" ++ [nl]
  ++ lit "    E --> B" ++ [nl]
  ++ lit "    D --> F[Save Image and Code]" ++ [nl]
  ++ lit "    F --> B" ++ [nl]
  ++ lit "```" ++ [nl]
  ++ [nl].

Definition mitigations_system : str :=
  lit "You are a helpful assistant that provides threat mitigation strategies in Markdown format.".

(** [str(n)] of an [int]. *)
Definition int_str (n : Z) : str :=
  lit (NilZero.string_of_int (Z.to_int n)).

(** The page fragment built by [mermaid(code, height)]. *)
Definition mermaid_html (code : str) (height : Z) : str :=
  [nl]
  ++ lit "        <pre class=" ++ quoted "mermaid" ++ lit " style=" ++ dquote :: lit "height: " ++ int_str height ++ lit "px;" ++ [dquote] ++ lit ">" ++ [nl]
  ++ lit "            " ++ code ++ [nl]
  ++ lit "        </pre>" ++ [nl]
  ++ [nl]
  ++ lit "        <script type=" ++ quoted "module" ++ lit ">" ++ [nl]
  ++ lit "            import mermaid from 'https://cdn.jsdelivr.net/npm/mermaid@10/dist/mermaid.esm.min.mjs';" ++ [nl]
  ++ lit "            mermaid.initialize({ startOnLoad: true });" ++ [nl]
  ++ lit "        </script>" ++ [nl]
  ++ lit "        ".

(** ** The page, the service and the script monad *)

(** Elements the script writes to the page, in the order written. *)
Inductive element : Type :=
| StSpinner (text : str)
| StMarkdown (body : str)
| StError (body : str)
| StWrite (body : str)
| StCode (body : str)
| StHtml (body : str) (height : Z)
| StDownloadButton (label data file_name mime : str) (help : option str).

(** One [client.chat.completions.create] call. *)
Record request : Type := {
  req_api_key : str;
  req_model : str;
  req_json_object : bool;
  req_system : str;
  req_user : str
}.

(** What the client library does with a request: it returns the text of
    the first choice, or raises an exception whose [str()] is [msg]. *)
Inductive reply : Type :=
| Completes (content : str)
| Fails (msg : str).

Record world : Type := {
  session_state : gmap str pyval;
  page : list element;
  calls : list request
}.

Definition M (A : Type) : Type := world -> res A * world.

#[global] Instance M_ret : MRet M := fun A a w => (Ok a, w).
#[global] Instance M_bind : MBind M := fun A B f m w =>
  match m w with
  | (Ok a, w') => f a w'
  | (Raise e, w') => (Raise e, w')
  end.

Definition lift {A} (r : res A) : M A := fun w => (r, w).

(** [try: body / except Exception as e: handler e]. *)
Definition try_except {A} (body : M A) (handler : exn -> M A) : M A := fun w =>
  match body w with
  | (Ok a, w') => (Ok a, w')
  | (Raise e, w') => handler e w'
  end.

Definition write_page (e : element) (w : world) : world :=
  {| session_state := session_state w;
     page := page w ++ [e];
     calls := calls w |}.

Definition store (key : str) (v : pyval) (w : world) : world :=
  {| session_state := <[key := v]> (session_state w);
     page := page w;
     calls := calls w |}.

Definition log_call (r : request) (w : world) : world :=
  {| session_state := session_state w;
     page := page w;
     calls := calls w ++ [r] |}.

Definition show (e : element) : M unit := fun w => (Ok (), write_page e w).

Definition session_set (key : str) (v : pyval) : M unit := fun w =>
  (Ok (), store key v w).

Definition session_get (key : str) : M (option pyval) := fun w =>
  (Ok (session_state w !! key), w).

(** Reading a global name that may not have been assigned. *)
Definition load_global {A} (name : string) (binding : option A) : M A :=
  match binding with
  | Some a => mret a
  | None => lift (Raise (NameError (lit name)))
  end.

Definition chat_completion (service : request -> reply) (r : request) : M str :=
  fun w =>
    match service r with
    | Completes content => (Ok content, log_call r w)
    | Fails msg => (Raise (Raised msg), log_call r w)
    end.

Definition str_truthy (s : str) : bool := truthy (VStr s).

Inductive model_choice := Gpt4Preview | Gpt35Turbo.

Definition model_label (m : model_choice) : str :=
  match m with
  | Gpt4Preview => lit "gpt-4-1106-preview"
  | Gpt35Turbo => lit "gpt-3.5-turbo-1106"
  end.

(** What one run of the script reads: the widgets, the buttons and the
    behaviour of the service during the run. *)
Record inputs : Type := {
  app_input : str;
  app_type : app_kind;
  sensitive_data : sensitivity;
  pam : yes_no;
  internet_facing : yes_no;
  authentication : list auth_method;
  openai_api_key : str;
  selected_model : model_choice;
  threat_model_submit_button : bool;
  attack_tree_submit_button : bool;
  mitigations_submit_button : bool;
  service : request -> reply
}.

Definition session_key : str := lit "threat_model".

Section Script.

Variable py_str : pyval -> str.
Variable interp_msg : exn -> str.

(** [json.loads] on a [str]: the parsed value, or the exception it
    raises. *)
Variable json_loads : str -> res pyval.

(** *** The three response interpreters *)

Definition get_threat_model (service : request -> reply)
    (api_key model_name prompt : str) : M pyval :=
  content ← chat_completion service
    {| req_api_key := api_key;
       req_model := model_name;
       req_json_object := true;
       req_system := threat_model_system;
       req_user := prompt |};
  response_content ← lift (json_loads content);
  mret response_content.

Definition get_attack_tree (service : request -> reply)
    (api_key model_name prompt : str) : M str :=
  attack_tree_code ← chat_completion service
    {| req_api_key := api_key;
       req_model := model_name;
       req_json_object := false;
       req_system := attack_tree_system;
       req_user := prompt |};
  let attack_tree_code := Regex.sub attack_tree_code in
  mret attack_tree_code.

Definition get_mitigations (service : request -> reply)
    (api_key model_name prompt : str) : M str :=
  mitigations ← chat_completion service
    {| req_api_key := api_key;
       req_model := model_name;
       req_json_object := false;
       req_system := mitigations_system;
       req_user := prompt |};
  mret mitigations.

Definition mermaid (code : str) (height : Z) : M unit :=
  show (StHtml (mermaid_html code height) height).

(** *** Threat Model Generation *)

Definition threat_model_try (i : inputs) (threat_model_prompt : str)
    : M (option str) :=
  try_except
    (model_output ← get_threat_model (service i) (openai_api_key i)
                      (model_label (selected_model i)) threat_model_prompt;
     threat_model ← lift (get model_output (lit "threat_model") (VList []));
     improvement_suggestions ←
       lift (get model_output (lit "improvement_suggestions") (VList []));
     session_set session_key threat_model;;
     markdown_output ←
       lift (json_to_markdown py_str threat_model improvement_suggestions);
     show (StMarkdown markdown_output);;
     mret (Some markdown_output))
    (fun e =>
       show (StError (lit "Error generating threat model: "
                        ++ exn_str interp_msg e));;
       mret None).

Definition threat_model_section (i : inputs) : M unit :=
  (if threat_model_submit_button i && str_truthy (app_input i) then
     let threat_model_prompt :=
       create_threat_model_prompt (app_kind_label (app_type i))
         (authentication i) (yes_no_label (internet_facing i))
         (sensitivity_label (sensitive_data i)) (yes_no_label (pam i))
         (app_input i) in
     show (StSpinner (lit "Analysing potential threats..."));;
     binding ← threat_model_try i threat_model_prompt;
     (* the button sits after the [try] statement and reads the global
        assigned inside it *)
     markdown_output ← load_global "markdown_output" binding;
     show (StDownloadButton (lit "Download Threat Model") markdown_output
             (lit "stride_gpt_threat_model.md") (lit "text/markdown") None)
   else mret ());;
  (if threat_model_submit_button i && negb (str_truthy (app_input i)) then
     show (StError (lit "Please enter your application details before submitting."))
   else mret ()).

(** *** Attack Tree Generation *)

Definition attack_tree_section (i : inputs) : M unit :=
  if attack_tree_submit_button i && str_truthy (app_input i) then
    let attack_tree_prompt :=
      create_attack_tree_prompt (app_kind_label (app_type i))
        (authentication i) (yes_no_label (internet_facing i))
        (sensitivity_label (sensitive_data i)) (yes_no_label (pam i))
        (app_input i) in
    show (StSpinner (lit "Generating attack tree..."));;
    try_except
      (mermaid_code ← get_attack_tree (service i) (openai_api_key i)
                        (model_label (selected_model i)) attack_tree_prompt;
       show (StWrite (lit "Attack Tree Code:"));;
       show (StCode mermaid_code);;
       show (StWrite (lit "Attack Tree Diagram Preview:"));;
       mermaid mermaid_code 500;;
       show (StDownloadButton (lit "Download Diagram Code") mermaid_code
               (lit "attack_tree.md") (lit "text/plain")
               (Some (lit "Download the Mermaid code for the attack tree diagram."))))
      (fun e =>
         show (StError (lit "Error generating attack tree: "
                          ++ exn_str interp_msg e)))
  else mret ().

(** *** Mitigations Generation *)

Definition mitigations_section (i : inputs) : M unit :=
  if mitigations_submit_button i then
    stored ← session_get session_key;
    match stored with
    | Some threat_model =>
        if truthy threat_model then
          threats_markdown ← lift (json_to_markdown py_str threat_model (VList []));
          let mitigations_prompt := create_mitigations_prompt threats_markdown in
          show (StSpinner (lit "Suggesting mitigations..."));;
          try_except
            (mitigations_markdown ← get_mitigations (service i) (openai_api_key i)
                                      (model_label (selected_model i)) mitigations_prompt;
             show (StMarkdown mitigations_markdown);;
             show (StDownloadButton (lit "Download Mitigations") mitigations_markdown
                     (lit "mitigations.md") (lit "text/markdown") None))
            (fun e =>
               show (StError (lit "Error suggesting mitigations: "
                                ++ exn_str interp_msg e)))
        else
          show (StError (lit "Please generate a threat model first before suggesting mitigations."))
    | None =>
        show (StError (lit "Please generate a threat model first before suggesting mitigations."))
    end
  else mret ().

(** *** One run of the script, and a session *)

Definition script (i : inputs) : M unit :=
  threat_model_section i;;
  attack_tree_section i;;
  mitigations_section i.

(** Every interaction reruns the script on a cleared page; the session
    dictionary survives, also when the run ends in an exception. *)
Definition rerun (w : world) (i : inputs) : world :=
  snd (script i {| session_state := session_state w;
                   page := [];
                   calls := calls w |}).

Definition new_session : world :=
  {| session_state := ∅; page := []; calls := [] |}.

Definition session (history : list inputs) : world :=
  fold_left rerun history new_session.

End Script.

(** ** Fenced texts *)

(** A response wrapped the way the system message shows: the marker line,
    the diagram, the closing line. *)
Definition fenced (body : str) : str :=
  Regex.fence_open ++ [nl] ++ body ++ [nl] ++ Regex.fence_close.

(** Three backticks in a row somewhere in the text. *)
Fixpoint has_fence (s : str) : bool :=
  match s with
  | [] => false
  | _ :: t => bool_decide (is_Some (strip_prefix Regex.fence_close s)) || has_fence t
  end.

Definition starts_with_space (s : str) : bool :=
  match s with
  | [] => false
  | c :: _ => Regex.is_space c
  end.

Definition ends_with_space (s : str) : bool :=
  match last s with
  | Some c => Regex.is_space c
  | None => false
  end.

(** [x in s] for two [str]. *)
Definition contains (s x : str) : Prop := exists pre post, s = pre ++ x ++ post.

(** The text of the specification's fence example and its diagram. *)
Definition diagram_example : str := lit "graph TD" ++ [nl] ++ lit "A-->B".

(** A diagram with a fence line in the middle. *)
Definition diagram_nested : str :=
  lit "A" ++ [nl] ++ lit "```" ++ [nl] ++ lit "B".

(** ** The requests the handlers send *)

Definition threat_model_request (i : inputs) : request :=
  {| req_api_key := openai_api_key i;
     req_model := model_label (selected_model i);
     req_json_object := true;
     req_system := threat_model_system;
     req_user :=
       create_threat_model_prompt (app_kind_label (app_type i))
         (authentication i) (yes_no_label (internet_facing i))
         (sensitivity_label (sensitive_data i)) (yes_no_label (pam i))
         (app_input i) |}.

Definition attack_tree_request (i : inputs) : request :=
  {| req_api_key := openai_api_key i;
     req_model := model_label (selected_model i);
     req_json_object := false;
     req_system := attack_tree_system;
     req_user :=
       create_attack_tree_prompt (app_kind_label (app_type i))
         (authentication i) (yes_no_label (internet_facing i))
         (sensitivity_label (sensitive_data i)) (yes_no_label (pam i))
         (app_input i) |}.

Definition mitigations_request (i : inputs) (threats_markdown : str) : request :=
  {| req_api_key := openai_api_key i;
     req_model := model_label (selected_model i);
     req_json_object := false;
     req_system := mitigations_system;
     req_user := create_mitigations_prompt threats_markdown |}.

Definition validation_description : str :=
  lit "Please enter your application details before submitting.".

Definition validation_threat_model : str :=
  lit "Please generate a threat model first before suggesting mitigations.".

Definition spinner_threats : element :=
  StSpinner (lit "Analysing potential threats...").

Definition spinner_mitigations : element :=
  StSpinner (lit "Suggesting mitigations...").

(** The exception of reading [markdown_output] before any assignment. *)
Definition unbound_markdown_output : exn := NameError (lit "markdown_output").

Definition is_download_button (e : element) : bool :=
  match e with
  | StDownloadButton _ _ _ _ _ => true
  | _ => false
  end.

(** ** Threat entries *)

Definition entry_keys : list str :=
  [key_threat_type; key_scenario; key_potential_impact].

Definition is_object (v : pyval) : bool :=
  match v with
  | VDict _ => true
  | _ => false
  end.

Definition has_key (k : str) (v : pyval) : bool :=
  match v with
  | VDict d => bool_decide (is_Some (assoc k d))
  | _ => false
  end.

(** An entry with the three keys the table reads. *)
Definition well_formed_entry (v : pyval) : bool :=
  forallb (fun k => has_key k v) entry_keys.

(** ** The session invariant, in the words of the specification *)

Section LastParsed.

Variable json_loads : str -> res pyval.

(** What the generation call of a run comes back with: the parsed
    response, or the failure of the service or of the parser. *)
Definition generation_outcome (i : inputs) : res pyval :=
  match service i (threat_model_request i) with
  | Completes content => json_loads content
  | Fails msg => Raise (Raised msg)
  end.

(** The threat list of a run whose generation was submitted and parsed
    as a JSON object. *)
Definition parsed_threats (i : inputs) : option pyval :=
  if threat_model_submit_button i && str_truthy (app_input i) then
    match generation_outcome i with
    | Ok (VDict d) => Some (from_option id (VList []) (assoc session_key d))
    | _ => None
    end
  else None.

(** The threat list of the last successfully parsed generation. *)
Definition last_parsed (history : list inputs) : option pyval :=
  fold_left
    (fun acc i => match parsed_threats i with Some v => Some v | None => acc end)
    history None.

End LastParsed.

(** ** A stand-in runtime and sample inputs *)

Definition sample_py_str (v : pyval) : str :=
  match v with
  | VNone => lit "None"
  | VBool true => lit "True"
  | VBool false => lit "False"
  | VInt z => int_str z
  | _ => lit "<value>"
  end.

Definition sample_interp_msg (e : exn) : str :=
  match e with
  | NameError name => lit "name " ++ repr_plain name ++ lit " is not defined"
  | TypeError_not_iterable _ => lit "object is not iterable"
  | TypeError_index _ => lit "indices must be integers"
  | AttributeError_get _ => lit "object has no attribute 'get'"
  | KeyError k => repr_plain k
  | Raised m => m
  end.

Definition empty_object_text : str := lit "{}".

Definition half_entry : pyval :=
  VDict [(key_threat_type, VStr (lit "Spoofing"))].

Definition full_entry : pyval :=
  VDict [(key_threat_type, VStr (lit "T"));
         (key_scenario, VStr (lit "S"));
         (key_potential_impact, VStr (lit "I"))].

Definition half_entry_text : str := lit "{half}".

(** A parser that knows three texts and rejects every other. *)
Definition sample_json_loads (text : str) : res pyval :=
  if str_eqb text empty_object_text then Ok (VDict [])
  else if str_eqb text half_entry_text then
    Ok (VDict [(session_key, VList [half_entry])])
  else Raise (Raised (lit "Expecting value: line 1 column 1 (char 0)")).

Definition sample_inputs (description : str) (threat_model attack_tree mitigations : bool)
    (svc : request -> reply) : inputs :=
  {| app_input := description;
     app_type := WebApplication;
     sensitive_data := Confidential;
     pam := No;
     internet_facing := Yes;
     authentication := [SSO; MFA];
     openai_api_key := lit "sk-test";
     selected_model := Gpt4Preview;
     threat_model_submit_button := threat_model;
     attack_tree_submit_button := attack_tree;
     mitigations_submit_button := mitigations;
     service := svc |}.

Definition service_down : request -> reply :=
  fun _ => Fails (lit "Connection error.").

Definition service_says (content : str) : request -> reply :=
  fun _ => Completes content.

Definition sample_description : str := lit "A web shop with card payments".

(** The generation is submitted and the service is down. *)
Definition run_service_down : inputs :=
  sample_inputs sample_description true false false service_down.

(** The generation is submitted and the service answers an empty object. *)
Definition run_empty_object : inputs :=
  sample_inputs sample_description true false false (service_says empty_object_text).

(** Only the mitigations button is pressed. *)
Definition run_mitigations : inputs :=
  sample_inputs sample_description false false true service_down.

(** The attack-tree button is pressed over an empty description. *)
Definition run_attack_tree_blank : inputs :=
  sample_inputs [] true true false service_down.

(** ** Further notions for the statements *)

(** A text made of whitespace only. *)
Definition all_space (ws : str) : bool := forallb Regex.is_space ws.

(** The value under a key of an entry, for an entry that has it. *)
Definition entry_field (k : str) (v : pyval) : pyval :=
  match v with
  | VDict d => from_option id VNone (assoc k d)
  | _ => VNone
  end.

(** The first of the three keys, in the order the row reads them, that an
    object lacks. *)
Definition first_missing (d : list (str * pyval)) : option str :=
  List.find (fun k => negb (bool_decide (is_Some (assoc k d)))) entry_keys.

Definition spinner_attack_tree : element :=
  StSpinner (lit "Generating attack tree...").

(** How many of the three buttons a run finds pressed. *)
Definition pressed (i : inputs) : nat :=
  (Nat.b2n (threat_model_submit_button i)
   + Nat.b2n (attack_tree_submit_button i)
   + Nat.b2n (mitigations_submit_button i))%nat.

(** The page is cleared at the start of a run. *)
Definition cleared (w : world) : world :=
  {| session_state := session_state w; page := []; calls := calls w |}.

Definition array_text : str := lit "[]".

Definition full_entry_text : str := lit "{full}".

(** A parser that also knows an array and a well-formed threat model. *)
Definition sample_json_loads_more (text : str) : res pyval :=
  if str_eqb text array_text then Ok (VList [])
  else if str_eqb text full_entry_text then
    Ok (VDict [(session_key, VList [full_entry]);
               (lit "improvement_suggestions", VList [VStr (lit "X")])])
  else sample_json_loads text.

(** The generation is submitted and the service answers an array. *)
Definition run_array : inputs :=
  sample_inputs sample_description true false false (service_says array_text).

(** The generation is submitted and the answer holds one well-formed
    entry, respectively one entry with the threat type only. *)
Definition run_full_entry : inputs :=
  sample_inputs sample_description true false false (service_says full_entry_text).

Definition run_half_entry : inputs :=
  sample_inputs sample_description true false false (service_says half_entry_text).

(** Only the attack-tree button is pressed, and the service answers the
    fenced example, respectively is down. *)
Definition run_attack_tree : inputs :=
  sample_inputs sample_description false true false
    (service_says (fenced diagram_example)).

Definition run_attack_tree_down : inputs :=
  sample_inputs sample_description false true false service_down.

(** Only the mitigations button is pressed and the service answers. *)
Definition mitigations_text : str :=
  lit "| Threat Type | Scenario | Suggested Mitigation(s) |".

Definition run_mitigations_answered : inputs :=
  sample_inputs sample_description false false true (service_says mitigations_text).

(** A session that holds one well-formed entry. *)
Definition world_with_entry : world :=
  store session_key (VList [full_entry]) new_session.

(** The example with carriage returns before the line feeds. *)
Definition diagram_crlf : str := lit "graph TD" ++ [13; nl] ++ lit "A-->B".

(** What a chat model tends to put around its fenced block. *)
Definition prose_before : str := lit "Here is the attack tree:".
Definition prose_after : str := [nl] ++ lit "Let me know if you need changes.".

(** The table row of an entry that has the three keys, the line of a
    suggestion and the heading between the two parts. *)
Definition row_text (py_str : pyval -> str) (v : pyval) : str :=
  lit "| " ++ fmt py_str (entry_field key_threat_type v)
  ++ lit " | " ++ fmt py_str (entry_field key_scenario v)
  ++ lit " | " ++ fmt py_str (entry_field key_potential_impact v)
  ++ lit " |" ++ [nl].

Definition suggestion_text (py_str : pyval -> str) (v : pyval) : str :=
  lit "- " ++ fmt py_str v ++ [nl].

Definition suggestions_heading : str :=
  [nl; nl] ++ lit "## Improvement Suggestions" ++ [nl; nl].

(** The object and the tables of the sample runs. *)
Definition sample_object : list (str * pyval) :=
  [(session_key, VList [full_entry]);
   (lit "improvement_suggestions", VList [VStr (lit "X")])].

Definition sample_table : str :=
  table_header ++ lit "| T | S | I |" ++ [nl]
  ++ suggestions_heading ++ lit "- X" ++ [nl].

Definition sample_threats_table : str :=
  table_header ++ lit "| T | S | I |" ++ [nl] ++ suggestions_heading.

(** A request made with the key and the model of the run. *)
Definition with_credentials (i : inputs) (r : request) : Prop :=
  req_api_key r = openai_api_key i /\ req_model r = model_label (selected_model i).

(** * Properties *)

(** ** The fence-stripping substitution *)

Section RegexFacts.
Import Regex.

Lemma fence_close_chars : fence_close = [backtick; backtick; backtick].
Proof. reflexivity. Qed.

Lemma strip_prefix_app (p x : str) : strip_prefix p (p ++ x) = Some x.
Proof.
  induction p as [|a p IH]; [by destruct x|].
  simpl. by rewrite N.eqb_refl.
Qed.

Lemma strip_prefix_Some (p x r : str) :
  strip_prefix p x = Some r <-> x = p ++ r.
Proof.
  revert x. induction p as [|a p IH]; intros x.
  - destruct x; simpl; split; congruence.
  - destruct x as [|b x]; cbn [strip_prefix app]; [split; congruence|].
    destruct (N.eqb_spec a b) as [->|Hab].
    + rewrite IH. split; congruence.
    + split; congruence.
Qed.

Lemma strip_prefix_open_close (x : str) :
  strip_prefix fence_close x = None -> strip_prefix fence_open x = None.
Proof.
  intros Hc. destruct (strip_prefix fence_open x) as [r|] eqn:Ho; [|done].
  apply strip_prefix_Some in Ho.
  change fence_open with (fence_close ++ lit "mermaid") in Ho.
  rewrite <- app_assoc in Ho. apply strip_prefix_Some in Ho. congruence.
Qed.

Lemma sub_loop_nil fuel prev : sub_loop fuel prev [] = [].
Proof.
  destruct fuel; [done|]. cbn [sub_loop]. unfold match_at, match_open.
  by destruct (at_bol prev).
Qed.

Lemma space_is_not_backtick c : is_space c = true -> c <> backtick.
Proof. intros H ->. vm_compute in H. discriminate. Qed.

Lemma has_fence_cons c s : has_fence (c :: s) = false -> has_fence s = false.
Proof. simpl. by intros [_ ?]%orb_false_iff. Qed.

Lemma has_fence_drop k s : has_fence s = false -> has_fence (drop k s) = false.
Proof.
  revert s. induction k as [|k IH]; intros [|c s] H; simpl; try done.
  apply IH. by eapply has_fence_cons.
Qed.

(** Inside a text without fence, followed by a line feed, no position
    starts three backticks. *)
Lemma no_fence_no_close (s t : str) :
  s <> [] -> has_fence s = false ->
  strip_prefix fence_close (s ++ nl :: t) = None.
Proof.
  intros Hne Hf.
  destruct (strip_prefix fence_close (s ++ nl :: t)) as [r|] eqn:E; [|done].
  exfalso. apply strip_prefix_Some in E. rewrite fence_close_chars in E.
  destruct s as [|a [|b [|c s]]]; [done|discriminate E|discriminate E|].
  injection E as -> -> -> _.
  cbn [has_fence] in Hf. apply orb_false_iff in Hf as [Hf _].
  apply bool_decide_eq_false in Hf. apply Hf.
  rewrite fence_close_chars. exists s. by apply strip_prefix_Some.
Qed.

(** The greedy whitespace run stops inside a text whose last character
    is not whitespace. *)
Lemma space_run_inside (s t : str) :
  s <> [] -> ends_with_space s = false ->
  space_run (s ++ t) = space_run s /\ (space_run s < length s)%nat.
Proof.
  induction s as [|a s IH]; [done|]. intros _ Hl.
  destruct s as [|b s].
  - unfold ends_with_space in Hl. simpl in *. rewrite Hl. lia.
  - assert (ends_with_space (b :: s) = false) as Hl' by exact Hl.
    destruct (IH ltac:(done) Hl') as [E L].
    remember (b :: s) as r eqn:Hr. clear Hr IH Hl Hl'.
    cbn [app space_run length]. rewrite E. destruct (is_space a); lia.
Qed.

Lemma ends_with_space_drop k s :
  (k < length s)%nat -> ends_with_space (drop k s) = ends_with_space s.
Proof.
  intros H. unfold ends_with_space.
  rewrite <- (take_drop k s) at 2. rewrite last_app.
  destruct (last (drop k s)) eqn:E; [done|].
  apply last_None in E. apply (f_equal length) in E.
  rewrite length_drop in E. simpl in E. lia.
Qed.

Lemma match_close_inside (s : str) :
  s <> [] -> has_fence s = false -> ends_with_space s = false ->
  match_close (s ++ nl :: fence_close) = None.
Proof.
  intros Hne Hf Hl. unfold match_close.
  destruct (space_run_inside s (nl :: fence_close) Hne Hl) as [-> L].
  rewrite drop_app_le by lia.
  rewrite no_fence_no_close; [done| |by apply has_fence_drop].
  intros E. apply (f_equal length) in E. rewrite length_drop in E.
  simpl in E. lia.
Qed.

Lemma match_at_inside prev (s : str) :
  s <> [] -> has_fence s = false -> ends_with_space s = false ->
  match_at prev (s ++ nl :: fence_close) = None.
Proof.
  intros Hne Hf Hl. unfold match_at, match_open.
  rewrite strip_prefix_open_close by by apply no_fence_no_close.
  rewrite match_close_inside by done. by destruct (at_bol prev).
Qed.

(** After a character that is not whitespace the closing line is
    matched by the second alternative and nothing is left. *)
Lemma sub_loop_closing fuel c :
  is_space c = false ->
  sub_loop (S fuel) (Some c) (nl :: fence_close) = [].
Proof.
  intros Hc. cbn [sub_loop]. unfold match_at, match_open, at_bol.
  assert ((c =? nl) = false) as ->.
  { apply N.eqb_neq. intros ->. done. }
  change (match_close (nl :: fence_close)) with (Some 4%nat).
  apply sub_loop_nil.
Qed.

Lemma sub_loop_inside (s : str) : forall fuel prev,
  s <> [] -> has_fence s = false -> ends_with_space s = false ->
  (length s < fuel)%nat ->
  sub_loop fuel prev (s ++ nl :: fence_close) = s.
Proof.
  induction s as [|a s IH]; [done|]. intros fuel prev _ Hf Hl Hfuel.
  destruct fuel as [|fuel]; [simpl in Hfuel; lia|].
  cbn [sub_loop]. rewrite match_at_inside by done.
  change ((a :: s) ++ nl :: fence_close) with (a :: (s ++ nl :: fence_close)).
  f_equal. destruct s as [|b s].
  - destruct fuel as [|fuel]; [simpl in Hfuel; lia|].
    by apply sub_loop_closing.
  - apply IH; [done|by eapply has_fence_cons|exact Hl|simpl in *; lia].
Qed.

End RegexFacts.

Section Fuel.
Import Regex.

Lemma space_run_le (s : str) : (space_run s <= length s)%nat.
Proof.
  induction s as [|c s IH]; [done|]. cbn [space_run length].
  destruct (is_space c); lia.
Qed.

(** A match is never empty and never runs past the end of the text. *)
Lemma match_at_bounds prev (s : str) n :
  match_at prev s = Some n -> (0 < n <= length s)%nat.
Proof.
  unfold match_at, match_open, match_close.
  destruct (at_bol prev);
    [destruct (strip_prefix fence_open s) as [r|] eqn:Eo|].
  - intros [= <-]. apply strip_prefix_Some in Eo as ->.
    rewrite length_app. pose proof (space_run_le r).
    change (length fence_open) with 10%nat. lia.
  - destruct (strip_prefix fence_close (drop (space_run s) s)) as [r|] eqn:Ec; [|done].
    destruct (at_eol r); [|done]. intros [= <-].
    apply strip_prefix_Some in Ec. apply (f_equal length) in Ec.
    rewrite length_drop, length_app in Ec.
    change (length fence_close) with 3%nat in *. lia.
  - destruct (strip_prefix fence_close (drop (space_run s) s)) as [r|] eqn:Ec; [|done].
    destruct (at_eol r); [|done]. intros [= <-].
    apply strip_prefix_Some in Ec. apply (f_equal length) in Ec.
    rewrite length_drop, length_app in Ec.
    change (length fence_close) with 3%nat in *. lia.
Qed.

(** The scan never runs out of fuel: any bound from the length of the
    text up gives the same result. *)
Lemma sub_loop_fuel fuel1 : forall fuel2 prev (s : str),
  (length s <= fuel1)%nat -> (length s <= fuel2)%nat ->
  sub_loop fuel1 prev s = sub_loop fuel2 prev s.
Proof.
  induction fuel1 as [|fuel1 IH]; intros fuel2 prev s H1 H2.
  - destruct s; [|simpl in H1; lia]. by rewrite !sub_loop_nil.
  - destruct fuel2 as [|fuel2].
    { destruct s; [|simpl in H2; lia]. by rewrite !sub_loop_nil. }
    cbn [sub_loop]. destruct (match_at prev s) as [n|] eqn:E.
    + apply match_at_bounds in E. apply IH; rewrite length_drop; lia.
    + destruct s as [|c s]; [done|]. f_equal. simpl in H1, H2. apply IH; lia.
Qed.

End Fuel.

Section AttackTreeText.
Import Regex.

Lemma length_fenced body : length (fenced body) = (length body + 15)%nat.
Proof.
  unfold fenced. rewrite !length_app. change (length fence_open) with 10%nat.
  change (length fence_close) with 3%nat. simpl. lia.
Qed.

Lemma sub_fenced_empty : sub (fenced []) = [].
Proof. reflexivity. Qed.

Lemma sub_loop_step fuel prev s :
  sub_loop (S fuel) prev s =
  match match_at prev s with
  | Some n => sub_loop fuel (prev_after prev n s) (drop n s)
  | None =>
      match s with
      | [] => []
      | c :: t => c :: sub_loop fuel (Some c) t
      end
  end.
Proof. reflexivity. Qed.

(** The first step on a fenced text whose diagram starts with a
    character other than whitespace: the marker and its line feed go. *)
Lemma match_at_marker (body rest : str) :
  starts_with_space body = false -> body <> [] ->
  match_at None (fence_open ++ [nl] ++ body ++ rest) = Some 11%nat.
Proof.
  intros Hs Hne. unfold match_at, match_open, at_bol.
  rewrite strip_prefix_app. destruct body as [|c body]; [done|].
  simpl in Hs. change (length fence_open) with 10%nat.
  cbn [app space_run]. change (is_space nl) with true. by rewrite Hs.
Qed.

(** C1, amended: on a marker line, a diagram and a closing line, the
    substitution returns exactly the diagram provided the diagram holds
    no three backticks in a row and neither starts nor ends with
    whitespace.  The substitution replaces every match, so nothing is
    promised for a diagram with fence lines of its own. *)
Theorem sub_fenced_plain (body : str) :
  has_fence body = false ->
  starts_with_space body = false ->
  ends_with_space body = false ->
  sub (fenced body) = body.
Proof.
  intros Hf Hs He. destruct body as [|c body]; [exact sub_fenced_empty|].
  unfold sub. rewrite length_fenced.
  replace (length (c :: body) + 15)%nat with (S (length (c :: body) + 14)) by lia.
  rewrite sub_loop_step. unfold fenced at 1.
  rewrite (match_at_marker (c :: body) ([nl] ++ fence_close)) by done.
  replace (drop 11 (fenced (c :: body)))
    with ((c :: body) ++ nl :: fence_close) by reflexivity.
  apply sub_loop_inside; [done..|]. simpl. lia.
Qed.

(** The amended statement at the diagram of the specification's
    example. *)
Lemma sub_fenced_plain_witness :
  has_fence diagram_example = false
  /\ starts_with_space diagram_example = false
  /\ ends_with_space diagram_example = false
  /\ sub (fenced diagram_example) = diagram_example.
Proof.
  split; [reflexivity|]. split; [reflexivity|]. split; [reflexivity|].
  apply (sub_fenced_plain diagram_example); reflexivity.
Defined.

(** C1 as stated fails: a fence line inside the diagram is removed with
    the line feed before it, so the inner content is not left
    untouched. *)
Lemma sub_fenced_nested_counterexample :
  sub (fenced diagram_nested) <> diagram_nested
  /\ sub (fenced diagram_nested) = lit "A" ++ [nl] ++ lit "B".
Proof. split; [|reflexivity]. vm_compute. discriminate. Qed.

End AttackTreeText.

(** ** Running the handlers *)

Ltac run :=
  cbv beta iota zeta delta
    [script threat_model_section threat_model_try attack_tree_section
     mitigations_section get_threat_model get_attack_tree get_mitigations
     mermaid try_except show session_set session_get load_global
     chat_completion lift mbind mret M_bind M_ret res_bind res_ret
     generation_outcome threat_model_request attack_tree_request
     mitigations_request].

Ltac run_in H :=
  cbv beta iota zeta delta
    [generation_outcome threat_model_request attack_tree_request
     mitigations_request] in H.

Section HandlerFacts.

Variable py_str : pyval -> str.
Variable interp_msg : exn -> str.
Variable json_loads : str -> res pyval.

Local Abbreviation threat_model_section' := (threat_model_section py_str interp_msg json_loads).
Local Abbreviation attack_tree_section' := (attack_tree_section interp_msg).
Local Abbreviation mitigations_section' := (mitigations_section py_str interp_msg).
Local Abbreviation script' := (script py_str interp_msg json_loads).
Local Abbreviation rerun' := (rerun py_str interp_msg json_loads).
Local Abbreviation session' := (session py_str interp_msg json_loads).
Local Abbreviation get_threat_model' := (get_threat_model json_loads).
Local Abbreviation generation_outcome' := (generation_outcome json_loads).
Local Abbreviation parsed_threats' := (parsed_threats json_loads).
Local Abbreviation last_parsed' := (last_parsed json_loads).
Local Abbreviation json_to_markdown' := (json_to_markdown py_str).
Local Abbreviation exn_str' := (exn_str interp_msg).

Lemma get_threat_model_run service api_key model_name prompt w :
  get_threat_model' service api_key model_name prompt w =
  let r := {| req_api_key := api_key; req_model := model_name;
              req_json_object := true; req_system := threat_model_system;
              req_user := prompt |} in
  (match service r with
   | Completes content => json_loads content
   | Fails msg => Raise (Raised msg)
   end, log_call r w).
Proof.
  run. destruct (service _); [|done]. by destruct (json_loads _).
Qed.

Lemma get_attack_tree_run service api_key model_name prompt w :
  get_attack_tree service api_key model_name prompt w =
  let r := {| req_api_key := api_key; req_model := model_name;
              req_json_object := false; req_system := attack_tree_system;
              req_user := prompt |} in
  (match service r with
   | Completes content => Ok (Regex.sub content)
   | Fails msg => Raise (Raised msg)
   end, log_call r w).
Proof. run. by destruct (service _). Qed.

(** The generation is submitted and fails, at the service or in the
    parser: the handler reports it, then the button after the [try]
    statement finds its [data] unbound. *)
Lemma threat_model_section_failed i w e :
  threat_model_submit_button i = true ->
  str_truthy (app_input i) = true ->
  generation_outcome' i = Raise e ->
  threat_model_section' i w =
  (Raise unbound_markdown_output,
   write_page (StError (lit "Error generating threat model: " ++ exn_str' e))
     (log_call (threat_model_request i) (write_page spinner_threats w))).
Proof.
  intros Hb Hd Hg. run. run_in Hg. rewrite Hb, Hd. cbn [andb].
  destruct (service i _); [rewrite Hg|injection Hg as <-]; reflexivity.
Qed.

Lemma threat_model_section_idle i w :
  threat_model_submit_button i = false ->
  threat_model_section' i w = (Ok (), w).
Proof. intros Hb. run. by rewrite Hb. Qed.

(** The sibling of the attack-tree handler: an empty description is
    answered with the validation message. *)
Lemma threat_model_section_empty i w :
  threat_model_submit_button i = true ->
  str_truthy (app_input i) = false ->
  threat_model_section' i w = (Ok (), write_page (StError validation_description) w).
Proof. intros Hb Hd. run. by rewrite Hb, Hd. Qed.

(** The response parses, but not to a [dict]: [.get] is missing. *)
Lemma threat_model_section_not_object i w v :
  threat_model_submit_button i = true ->
  str_truthy (app_input i) = true ->
  generation_outcome' i = Ok v ->
  (forall d, v <> VDict d) ->
  threat_model_section' i w =
  (Raise unbound_markdown_output,
   write_page (StError (lit "Error generating threat model: "
                          ++ exn_str' (AttributeError_get v)))
     (log_call (threat_model_request i) (write_page spinner_threats w))).
Proof.
  intros Hb Hd Hg Hv. run. run_in Hg. rewrite Hb, Hd. cbn [andb].
  destruct (service i _); [|done]. rewrite Hg.
  destruct v; try reflexivity. by destruct (Hv d).
Qed.

(** The response parses to a [dict]: the threat list is stored before
    it is rendered. *)
Lemma threat_model_section_object i w d :
  threat_model_submit_button i = true ->
  str_truthy (app_input i) = true ->
  generation_outcome' i = Ok (VDict d) ->
  let threat_model := from_option id (VList []) (assoc session_key d) in
  let improvement_suggestions :=
    from_option id (VList []) (assoc (lit "improvement_suggestions") d) in
  let w2 := store session_key threat_model
              (log_call (threat_model_request i) (write_page spinner_threats w)) in
  threat_model_section' i w =
  match json_to_markdown' threat_model improvement_suggestions with
  | Ok markdown_output =>
      (Ok (),
       write_page (StDownloadButton (lit "Download Threat Model") markdown_output
                     (lit "stride_gpt_threat_model.md") (lit "text/markdown") None)
         (write_page (StMarkdown markdown_output) w2))
  | Raise e =>
      (Raise unbound_markdown_output,
       write_page (StError (lit "Error generating threat model: " ++ exn_str' e)) w2)
  end.
Proof.
  intros Hb Hd Hg. run. run_in Hg. rewrite Hb, Hd. cbn [andb negb].
  destruct (service i _); [|done]. rewrite Hg. cbn [get].
  change (lit "threat_model") with session_key.
  by destruct (json_to_markdown _ _ _).
Qed.

Lemma threat_model_section_state i w :
  session_state (snd (threat_model_section' i w)) =
  match parsed_threats' i with
  | Some v => <[session_key := v]> (session_state w)
  | None => session_state w
  end.
Proof.
  unfold parsed_threats.
  destruct (threat_model_submit_button i) eqn:Hb;
    [|by rewrite threat_model_section_idle].
  destruct (str_truthy (app_input i)) eqn:Hd;
    [|by rewrite threat_model_section_empty].
  cbn [andb]. destruct (generation_outcome' i) as [v|e] eqn:Hg;
    [|by erewrite threat_model_section_failed].
  destruct v; try (by erewrite threat_model_section_not_object).
  erewrite threat_model_section_object by done.
  by destruct (json_to_markdown' _ _).
Qed.

Lemma attack_tree_section_state i w :
  session_state (snd (attack_tree_section' i w)) = session_state w.
Proof.
  run. destruct (_ && _); [|done]. by destruct (service i _).
Qed.

Lemma mitigations_section_state i w :
  session_state (snd (mitigations_section' i w)) = session_state w.
Proof.
  run. destruct (mitigations_submit_button i); [|done].
  destruct (session_state w !! session_key) as [v|]; [|done].
  destruct (truthy v); [|done].
  destruct (json_to_markdown _ _ _); [|done].
  by destruct (service i _).
Qed.

Lemma script_state i w :
  session_state (snd (script' i w)) =
  session_state (snd (threat_model_section' i w)).
Proof.
  unfold script, mbind, M_bind.
  destruct (threat_model_section' i w) as [[[]|e] w1]; [|done].
  destruct (attack_tree_section' i w1) as [[[]|e] w2] eqn:Ha.
  - rewrite mitigations_section_state.
    change w2 with (snd (Ok (), w2)). rewrite <- Ha.
    apply attack_tree_section_state.
  - change w2 with (snd (@Raise unit e, w2)). rewrite <- Ha.
    apply attack_tree_section_state.
Qed.

Lemma rerun_state w i :
  session_state (rerun' w i) =
  match parsed_threats' i with
  | Some v => <[session_key := v]> (session_state w)
  | None => session_state w
  end.
Proof.
  unfold rerun. by rewrite script_state, threat_model_section_state.
Qed.

Lemma session_snoc history i : session' (history ++ [i]) = rerun' (session' history) i.
Proof. unfold session. by rewrite fold_left_app. Qed.

Lemma last_parsed_snoc history i :
  last_parsed' (history ++ [i]) =
  match parsed_threats' i with
  | Some v => Some v
  | None => last_parsed' history
  end.
Proof. unfold last_parsed. by rewrite fold_left_app. Qed.

(** The stored threat list is the one of the last run whose generation
    parsed, and no other key is ever written. *)
Lemma session_lookup history :
  session_state (session' history) !! session_key = last_parsed' history.
Proof.
  induction history as [|i history IH] using rev_ind; [done|].
  rewrite session_snoc, rerun_state, last_parsed_snoc.
  destruct (parsed_threats' i); [by rewrite lookup_insert_eq|done].
Qed.

(** The stored list is replaced even when the table cannot be built from
    it: the assignment to the session comes first. *)
Lemma threat_model_section_stored_before_rendered i w d e :
  threat_model_submit_button i = true ->
  str_truthy (app_input i) = true ->
  generation_outcome' i = Ok (VDict d) ->
  json_to_markdown' (from_option id (VList []) (assoc session_key d))
    (from_option id (VList []) (assoc (lit "improvement_suggestions") d)) = Raise e ->
  session_state (snd (threat_model_section' i w)) !! session_key
  = Some (from_option id (VList []) (assoc session_key d)).
Proof.
  intros Hb Hd Hg Hr. rewrite (threat_model_section_object i w d Hb Hd Hg).
  cbv zeta. rewrite Hr. cbn [snd write_page store session_state].
  apply lookup_insert_eq.
Qed.

Lemma attack_tree_section_skipped i w :
  attack_tree_submit_button i && str_truthy (app_input i) = false ->
  attack_tree_section' i w = (Ok (), w).
Proof. intros H. run. by rewrite H. Qed.

Lemma mitigations_section_idle i w :
  mitigations_submit_button i = false ->
  mitigations_section' i w = (Ok (), w).
Proof. intros H. run. by rewrite H. Qed.

(** The gate of the mitigations handler: the key must be present and its
    value truthy. *)
Lemma mitigations_section_gate i w :
  mitigations_submit_button i = true ->
  from_option truthy false (session_state w !! session_key) = false ->
  mitigations_section' i w = (Ok (), write_page (StError validation_threat_model) w).
Proof.
  intros Hb Hg. run. rewrite Hb.
  destruct (session_state w !! session_key) as [v|]; [|done].
  simpl in Hg. by rewrite Hg.
Qed.

(** The table is built before the [try] statement: its exception leaves
    the handler. *)
Lemma mitigations_section_render_failure i w v e :
  mitigations_submit_button i = true ->
  session_state w !! session_key = Some v ->
  truthy v = true ->
  json_to_markdown' v (VList []) = Raise e ->
  mitigations_section' i w = (Raise e, w).
Proof. intros Hb Hs Ht Hr. run. by rewrite Hb, Hs, Ht, Hr. Qed.

Lemma script_only_mitigations i w :
  threat_model_submit_button i = false ->
  attack_tree_submit_button i = false ->
  script' i w = mitigations_section' i w.
Proof.
  intros Ht Ha. unfold script, mbind, M_bind.
  rewrite threat_model_section_idle by done.
  by rewrite attack_tree_section_skipped by by rewrite Ha.
Qed.

(** *** The renderer on a list of objects *)

Lemma threat_row_well_formed v :
  well_formed_entry v = true -> exists row, threat_row py_str v = Ok row.
Proof.
  unfold well_formed_entry, entry_keys. cbn [forallb].
  rewrite !andb_true_iff. intros (H1 & H2 & H3 & _).
  destruct v; try done. unfold has_key in *.
  apply bool_decide_eq_true in H1 as [a Ha], H2 as [b Hb], H3 as [c Hc].
  unfold threat_row, subscript, mbind, res_bind, mret, res_ret.
  rewrite Ha, Hb, Hc. eauto.
Qed.

Lemma threat_row_malformed v :
  is_object v = true -> well_formed_entry v = false ->
  exists k, k ∈ entry_keys /\ threat_row py_str v = Raise (KeyError k).
Proof.
  intros Ho Hw. destruct v; try done.
  unfold well_formed_entry, entry_keys, has_key in Hw. cbn [forallb] in Hw.
  unfold threat_row, subscript, mbind, res_bind, mret, res_ret, entry_keys.
  destruct (assoc key_threat_type d) as [a|];
    [|exists key_threat_type; split; [set_solver|done]].
  destruct (assoc key_scenario d) as [b|];
    [|exists key_scenario; split; [set_solver|done]].
  destruct (assoc key_potential_impact d) as [c|];
    [|exists key_potential_impact; split; [set_solver|done]].
  exfalso. rewrite !bool_decide_eq_true_2 in Hw by eauto. done.
Qed.

Lemma threat_rows_well_formed entries : forall acc,
  forallb well_formed_entry entries = true ->
  exists md, threat_rows py_str acc entries = Ok md.
Proof.
  induction entries as [|v entries IH]; intros acc H; [by exists acc|].
  cbn [forallb] in H. apply andb_true_iff in H as [Hv H].
  destruct (threat_row_well_formed v Hv) as [row Hrow].
  cbn [threat_rows]. unfold mbind, res_bind. rewrite Hrow. by apply IH.
Qed.

Lemma threat_rows_malformed entries : forall acc,
  forallb is_object entries = true ->
  forallb well_formed_entry entries = false ->
  exists k, k ∈ entry_keys /\ threat_rows py_str acc entries = Raise (KeyError k).
Proof.
  induction entries as [|v entries IH]; intros acc Ho Hw; [done|].
  cbn [forallb] in Ho, Hw. apply andb_true_iff in Ho as [Hv Ho].
  cbn [threat_rows]. unfold mbind, res_bind.
  destruct (well_formed_entry v) eqn:Ev.
  - destruct (threat_row_well_formed v Ev) as [row ->]. by apply IH.
  - destruct (threat_row_malformed v Hv Ev) as (k & Hk & ->). eauto.
Qed.

Lemma json_to_markdown_well_formed entries suggestions :
  forallb well_formed_entry entries = true ->
  exists md, json_to_markdown' (VList entries) (VList suggestions) = Ok md.
Proof.
  intros H. unfold json_to_markdown, iterate, mbind, res_bind, mret, res_ret.
  destruct (threat_rows_well_formed entries table_header H) as [md ->]. eauto.
Qed.

Lemma json_to_markdown_malformed entries :
  forallb is_object entries = true ->
  forallb well_formed_entry entries = false ->
  exists k, k ∈ entry_keys
    /\ forall suggestions,
         json_to_markdown' (VList entries) suggestions = Raise (KeyError k).
Proof.
  intros Ho Hw.
  destruct (threat_rows_malformed entries table_header Ho Hw) as (k & Hk & E).
  exists k. split; [done|]. intros suggestions.
  unfold json_to_markdown, iterate, mbind, res_bind. by rewrite E.
Qed.

Lemma malformed_nonempty entries :
  forallb well_formed_entry entries = false -> truthy (VList entries) = true.
Proof. by destruct entries. Qed.

Lemma rerun_mitigations_rejected w i :
  mitigations_submit_button i = true ->
  threat_model_submit_button i = false ->
  attack_tree_submit_button i = false ->
  from_option truthy false (session_state w !! session_key) = false ->
  page (rerun' w i) = [StError validation_threat_model]
  /\ calls (rerun' w i) = calls w.
Proof.
  intros Hm Ht Ha Hg. unfold rerun.
  rewrite script_only_mitigations by done.
  by rewrite mitigations_section_gate.
Qed.

(** ** The claims about the handlers *)

(** C2: when the generation call or the parsing of its response raises,
    the session dictionary is left as it was, in a single run and at the
    end of any history; and after any history the threat list in the
    session is the one of the last generation that parsed. *)
Theorem failed_generation_keeps_session_state w i e history :
  generation_outcome' i = Raise e ->
  session_state (rerun' w i) = session_state w
  /\ session_state (session' (history ++ [i])) = session_state (session' history)
  /\ session_state (session' history) !! session_key = last_parsed' history.
Proof.
  intros Hg.
  assert (parsed_threats' i = None) as Hp.
  { unfold parsed_threats. rewrite Hg. by destruct (_ && _). }
  split; [|split].
  - by rewrite rerun_state, Hp.
  - by rewrite session_snoc, rerun_state, Hp.
  - apply session_lookup.
Qed.

(** C3: a submitted threat-model generation that fails is caught by the
    handler, which shows "Error generating threat model: <message>"; the
    run adds no download button to the page (it stops at the button's
    unbound [data]). *)
Theorem failed_generation_reported_without_download w i e :
  threat_model_submit_button i = true ->
  str_truthy (app_input i) = true ->
  generation_outcome' i = Raise e ->
  script' i w =
    (Raise unbound_markdown_output,
     write_page (StError (lit "Error generating threat model: " ++ exn_str' e))
       (log_call (threat_model_request i) (write_page spinner_threats w)))
  /\ page (snd (script' i w)) =
       page w ++ [spinner_threats;
                  StError (lit "Error generating threat model: " ++ exn_str' e)]
  /\ forall el, el ∈ page (snd (script' i w)) ->
       is_download_button el = true -> el ∈ page w.
Proof.
  intros Hb Hd Hg.
  assert (script' i w =
    (Raise unbound_markdown_output,
     write_page (StError (lit "Error generating threat model: " ++ exn_str' e))
       (log_call (threat_model_request i) (write_page spinner_threats w)))) as E.
  { unfold script, mbind, M_bind.
    by rewrite (threat_model_section_failed i w e Hb Hd Hg). }
  rewrite E. split; [done|]. cbn [snd write_page log_call page].
  rewrite <- app_assoc. split; [done|].
  intros el Hel Hdl. apply elem_of_app in Hel as [Hel|Hel]; [done|].
  apply elem_of_cons in Hel as [->|Hel]; [done|].
  apply elem_of_cons in Hel as [->|Hel]; [done|]. by apply elem_of_nil in Hel.
Qed.

(** C4, evaluated on the code: with an empty description the attack-tree
    handler does nothing at all, neither a call nor a message, whereas the
    threat-model handler shows the validation message. *)
Theorem attack_tree_empty_description_silent w i :
  attack_tree_submit_button i = true ->
  app_input i = [] ->
  attack_tree_section' i w = (Ok (), w)
  /\ (threat_model_submit_button i = true ->
      threat_model_section' i w
      = (Ok (), write_page (StError validation_description) w)).
Proof.
  intros Hb Hd. split.
  - apply attack_tree_section_skipped. by rewrite Hb, Hd.
  - intros Ht. apply threat_model_section_empty; [done|]. by rewrite Hd.
Qed.

(** C5: a response that parses to a JSON object is returned as such, and
    a missing "threat_model" or "improvement_suggestions" key reads as the
    empty list; a response that does not parse makes [get_threat_model]
    raise the parser's exception to its caller. *)
Theorem threat_model_response_interpreted service api_key model_name prompt w content :
  let r := {| req_api_key := api_key; req_model := model_name;
              req_json_object := true; req_system := threat_model_system;
              req_user := prompt |} in
  service r = Completes content ->
  (forall e, json_loads content = Raise e ->
     get_threat_model' service api_key model_name prompt w = (Raise e, log_call r w))
  /\ (forall d, json_loads content = Ok (VDict d) ->
       get_threat_model' service api_key model_name prompt w
       = (Ok (VDict d), log_call r w)
       /\ (assoc (lit "threat_model") d = None ->
           get (VDict d) (lit "threat_model") (VList []) = Ok (VList []))
       /\ (assoc (lit "improvement_suggestions") d = None ->
           get (VDict d) (lit "improvement_suggestions") (VList []) = Ok (VList []))).
Proof.
  intros r Hs. split.
  - intros e He. rewrite get_threat_model_run. cbv zeta. fold r. by rewrite Hs, He.
  - intros d Hd. split; [|split].
    + rewrite get_threat_model_run. cbv zeta. fold r. by rewrite Hs, Hd.
    + intros Hk. cbn [get]. by rewrite Hk.
    + intros Hk. cbn [get]. by rewrite Hk.
Qed.

(** C6: a mitigations submission with no threat model in the session
    shows "Please generate a threat model first before suggesting
    mitigations." and makes no call; so does the run of a session in
    which no generation ever parsed. *)
Theorem mitigations_without_threat_model_rejected w i history :
  mitigations_submit_button i = true ->
  session_state w !! session_key = None ->
  last_parsed' history = None ->
  threat_model_submit_button i = false ->
  attack_tree_submit_button i = false ->
  mitigations_section' i w = (Ok (), write_page (StError validation_threat_model) w)
  /\ calls (snd (mitigations_section' i w)) = calls w
  /\ page (rerun' (session' history) i) = [StError validation_threat_model]
  /\ calls (rerun' (session' history) i) = calls (session' history).
Proof.
  intros Hb Hs Hl Ht Ha.
  assert (mitigations_section' i w
          = (Ok (), write_page (StError validation_threat_model) w)) as E.
  { apply mitigations_section_gate; [done|]. by rewrite Hs. }
  rewrite E. split; [done|]. split; [done|].
  apply rerun_mitigations_rejected; [done..|].
  by rewrite session_lookup, Hl.
Qed.

(** C9: after a generation that parsed but gave an empty threat list, the
    session holds the empty list, and a following mitigations submission
    gets the validation message and makes no call, exactly as in a new
    session: the gate tests the stored list for truth, not for
    presence. *)
Theorem empty_threat_list_rejected_by_mitigations w i1 i2 d :
  threat_model_submit_button i1 = true ->
  str_truthy (app_input i1) = true ->
  generation_outcome' i1 = Ok (VDict d) ->
  from_option id (VList []) (assoc session_key d) = VList [] ->
  mitigations_submit_button i2 = true ->
  threat_model_submit_button i2 = false ->
  attack_tree_submit_button i2 = false ->
  session_state (rerun' w i1) !! session_key = Some (VList [])
  /\ page (rerun' (rerun' w i1) i2) = [StError validation_threat_model]
  /\ calls (rerun' (rerun' w i1) i2) = calls (rerun' w i1)
  /\ page (rerun' (rerun' w i1) i2) = page (rerun' new_session i2).
Proof.
  intros Hb Hd Hg He Hm Ht Ha.
  assert (session_state (rerun' w i1) !! session_key = Some (VList [])) as Hs.
  { rewrite rerun_state. unfold parsed_threats. rewrite Hb, Hd, Hg, He.
    apply lookup_insert_eq. }
  split; [done|].
  destruct (rerun_mitigations_rejected (rerun' w i1) i2) as [Hp Hc];
    [done..|by rewrite Hs|].
  destruct (rerun_mitigations_rejected new_session i2) as [Hp0 _]; [done..|].
  by rewrite Hp, Hc, Hp0.
Qed.

(** C10: on a list of objects the renderer returns a table exactly when
    every entry has the three keys; with an entry that lacks one it raises
    [KeyError] for one of the three keys, whatever the suggestions are,
    so the threat-model handler shows the error in place of the table and
    the mitigations handler is left by the exception before any call. *)
Theorem malformed_entry_fails_rendering entries :
  forallb is_object entries = true ->
  (forallb well_formed_entry entries = true ->
     forall suggestions,
       exists md, json_to_markdown' (VList entries) (VList suggestions) = Ok md)
  /\ (forallb well_formed_entry entries = false ->
       exists k, k ∈ entry_keys
         /\ (forall suggestions,
               json_to_markdown' (VList entries) suggestions = Raise (KeyError k))
         /\ (forall i w d,
               threat_model_submit_button i = true ->
               str_truthy (app_input i) = true ->
               generation_outcome' i = Ok (VDict d) ->
               assoc session_key d = Some (VList entries) ->
               threat_model_section' i w =
               (Raise unbound_markdown_output,
                write_page (StError (lit "Error generating threat model: "
                                       ++ repr_plain k))
                  (store session_key (VList entries)
                     (log_call (threat_model_request i)
                        (write_page spinner_threats w)))))
         /\ (forall i w,
               mitigations_submit_button i = true ->
               session_state w !! session_key = Some (VList entries) ->
               mitigations_section' i w = (Raise (KeyError k), w))).
Proof.
  intros Ho. split.
  - intros Hw suggestions. by apply json_to_markdown_well_formed.
  - intros Hw.
    destruct (json_to_markdown_malformed entries Ho Hw) as (k & Hk & E).
    exists k. split; [done|]. split; [done|]. split.
    + intros i w d Hb Hd Hg Hl.
      rewrite (threat_model_section_object i w d Hb Hd Hg). cbv zeta.
      rewrite Hl. cbn [from_option id]. by rewrite E.
    + intros i w Hb Hs.
      apply (mitigations_section_render_failure i w (VList entries)); try done.
      by apply malformed_nonempty.
Qed.

End HandlerFacts.

(** ** The prompt and the example of the specification *)

Section PromptFacts.

Lemma contains_refl (s : str) : contains s s.
Proof. exists [], []. by rewrite app_nil_r. Qed.

Lemma contains_app_l (a s x : str) : contains s x -> contains (a ++ s) x.
Proof. intros (pre & post & ->). exists (a ++ pre), post. by rewrite <- app_assoc. Qed.

Lemma contains_app_r (s b x : str) : contains s x -> contains (s ++ b) x.
Proof.
  intros (pre & post & ->). exists pre, (post ++ b). by rewrite <- !app_assoc.
Qed.

Lemma contains_trans (s x y : str) : contains s x -> contains x y -> contains s y.
Proof.
  intros (p1 & q1 & ->) (p2 & q2 & ->). exists (p1 ++ p2), (q2 ++ q1).
  by rewrite <- !app_assoc.
Qed.

(** Each labelled line of the profile block is a piece of the block. *)
Lemma profile_lines_embed app_type authentication internet_facing sensitive_data pam app_input :
  let block := profile_lines app_type authentication internet_facing
                 sensitive_data pam app_input in
  contains block (lit "APPLICATION TYPE: " ++ app_type ++ [nl])
  /\ contains block (lit "AUTHENTICATION METHODS: " ++ auth_list_str authentication ++ [nl])
  /\ contains block (lit "INTERNET FACING: " ++ internet_facing ++ [nl])
  /\ contains block (lit "SENSITIVE DATA: " ++ sensitive_data ++ [nl])
  /\ contains block (lit "PRIVILEGED ACCESS MANAGEMENT: " ++ pam ++ [nl])
  /\ contains block (lit "APPLICATION DESCRIPTION: " ++ app_input ++ [nl]).
Proof.
  cbv zeta. unfold profile_lines.
  set (l1 := lit "APPLICATION TYPE: " ++ app_type ++ [nl]).
  set (l2 := lit "AUTHENTICATION METHODS: " ++ auth_list_str authentication ++ [nl]).
  set (l3 := lit "INTERNET FACING: " ++ internet_facing ++ [nl]).
  set (l4 := lit "SENSITIVE DATA: " ++ sensitive_data ++ [nl]).
  set (l5 := lit "PRIVILEGED ACCESS MANAGEMENT: " ++ pam ++ [nl]).
  set (l6 := lit "APPLICATION DESCRIPTION: " ++ app_input ++ [nl]).
  repeat split.
  - exists [], (l2 ++ l3 ++ l4 ++ l5 ++ l6).
    unfold l1, l2, l3, l4, l5, l6. by rewrite <- !app_assoc.
  - exists l1, (l3 ++ l4 ++ l5 ++ l6).
    unfold l1, l2, l3, l4, l5, l6. by rewrite <- !app_assoc.
  - exists (l1 ++ l2), (l4 ++ l5 ++ l6).
    unfold l1, l2, l3, l4, l5, l6. by rewrite <- !app_assoc.
  - exists (l1 ++ l2 ++ l3), (l5 ++ l6).
    unfold l1, l2, l3, l4, l5, l6. by rewrite <- !app_assoc.
  - exists (l1 ++ l2 ++ l3 ++ l4), l6.
    unfold l1, l2, l3, l4, l5, l6. by rewrite <- !app_assoc.
  - exists (l1 ++ l2 ++ l3 ++ l4 ++ l5), [].
    unfold l1, l2, l3, l4, l5, l6. by rewrite app_nil_r, <- !app_assoc.
Qed.

Lemma create_threat_model_prompt_block app_type authentication internet_facing sensitive_data pam app_input :
  contains
    (create_threat_model_prompt app_type authentication internet_facing
       sensitive_data pam app_input)
    (profile_lines app_type authentication internet_facing sensitive_data pam app_input).
Proof. unfold create_threat_model_prompt. apply contains_app_l, contains_app_r, contains_refl. Qed.

(** C7: for every profile, the prompt of the threat-model request holds
    the description and the printed form of each of the other five fields,
    each on its labelled line; an empty authentication list is printed as
    the empty list marker. *)
Theorem threat_model_prompt_embeds_profile (i : inputs) :
  let prompt := req_user (threat_model_request i) in
  contains prompt (lit "APPLICATION TYPE: " ++ app_kind_label (app_type i) ++ [nl])
  /\ contains prompt
       (lit "AUTHENTICATION METHODS: " ++ auth_list_str (authentication i) ++ [nl])
  /\ contains prompt
       (lit "INTERNET FACING: " ++ yes_no_label (internet_facing i) ++ [nl])
  /\ contains prompt
       (lit "SENSITIVE DATA: " ++ sensitivity_label (sensitive_data i) ++ [nl])
  /\ contains prompt
       (lit "PRIVILEGED ACCESS MANAGEMENT: " ++ yes_no_label (pam i) ++ [nl])
  /\ contains prompt (lit "APPLICATION DESCRIPTION: " ++ app_input i ++ [nl])
  /\ contains prompt (app_input i)
  /\ auth_list_str [] = lit "[]".
Proof.
  cbv zeta. cbn [req_user threat_model_request].
  pose proof (create_threat_model_prompt_block (app_kind_label (app_type i))
                (authentication i) (yes_no_label (internet_facing i))
                (sensitivity_label (sensitive_data i)) (yes_no_label (pam i))
                (app_input i)) as Hblock.
  destruct (profile_lines_embed (app_kind_label (app_type i))
              (authentication i) (yes_no_label (internet_facing i))
              (sensitivity_label (sensitive_data i)) (yes_no_label (pam i))
              (app_input i)) as (H1 & H2 & H3 & H4 & H5 & H6).
  repeat split; try (eapply contains_trans; [exact Hblock|done]).
  eapply contains_trans; [exact Hblock|]. eapply contains_trans; [exact H6|].
  apply contains_app_l, contains_app_r, contains_refl.
Qed.

(** C8: on the text of the specification's example the substitution, and
    so [get_attack_tree] when the service returns that text, yields the
    two diagram lines and nothing else. *)
Theorem get_attack_tree_strips_example api_key model_name prompt w :
  let text := lit "```mermaid" ++ [nl] ++ lit "graph TD" ++ [nl]
              ++ lit "A-->B" ++ [nl] ++ lit "```" in
  Regex.sub text = lit "graph TD" ++ [nl] ++ lit "A-->B"
  /\ fst (get_attack_tree (service_says text) api_key model_name prompt w)
     = Ok (lit "graph TD" ++ [nl] ++ lit "A-->B").
Proof.
  cbv zeta. split; [reflexivity|]. by rewrite get_attack_tree_run.
Qed.

End PromptFacts.

(** ** The statements at sample runs *)

Section Witnesses.

Local Abbreviation rt_script := (script sample_py_str sample_interp_msg sample_json_loads).
Local Abbreviation rt_rerun := (rerun sample_py_str sample_interp_msg sample_json_loads).
Local Abbreviation rt_session := (session sample_py_str sample_interp_msg sample_json_loads).

(** The service is down: the session of a new visitor stays empty. *)
Lemma failed_generation_keeps_session_state_witness :
  generation_outcome sample_json_loads run_service_down
    = Raise (Raised (lit "Connection error."))
  /\ session_state (rt_rerun new_session run_service_down) = session_state new_session.
Proof.
  split; [reflexivity|].
  apply (failed_generation_keeps_session_state sample_py_str sample_interp_msg
           sample_json_loads new_session run_service_down
           (Raised (lit "Connection error.")) []).
  reflexivity.
Defined.

(** The service is down: the page shows the spinner and the error. *)
Lemma failed_generation_reported_without_download_witness :
  threat_model_submit_button run_service_down = true
  /\ str_truthy (app_input run_service_down) = true
  /\ page (snd (rt_script run_service_down new_session))
     = [spinner_threats;
        StError (lit "Error generating threat model: Connection error.")].
Proof.
  split; [reflexivity|]. split; [reflexivity|].
  apply (failed_generation_reported_without_download sample_py_str
           sample_interp_msg sample_json_loads new_session run_service_down
           (Raised (lit "Connection error."))); reflexivity.
Defined.

(** The attack-tree button over an empty description leaves the page and
    the call log as they were. *)
Lemma attack_tree_empty_description_silent_witness :
  attack_tree_submit_button run_attack_tree_blank = true
  /\ app_input run_attack_tree_blank = []
  /\ attack_tree_section sample_interp_msg run_attack_tree_blank new_session
     = (Ok (), new_session).
Proof.
  split; [reflexivity|]. split; [reflexivity|].
  apply (attack_tree_empty_description_silent sample_py_str sample_interp_msg
           sample_json_loads new_session run_attack_tree_blank); reflexivity.
Defined.

(** The empty object has neither key: both reads give the empty list. *)
Lemma threat_model_response_interpreted_witness :
  sample_json_loads empty_object_text = Ok (VDict [])
  /\ get (VDict []) (lit "threat_model") (VList []) = Ok (VList [])
  /\ get (VDict []) (lit "improvement_suggestions") (VList []) = Ok (VList []).
Proof.
  split; [reflexivity|].
  destruct (threat_model_response_interpreted sample_json_loads
              (service_says empty_object_text) [] [] [] new_session
              empty_object_text eq_refl) as [_ H].
  destruct (H [] eq_refl) as (_ & H1 & H2).
  split; [apply H1|apply H2]; reflexivity.
Defined.

(** A new visitor presses the mitigations button. *)
Lemma mitigations_without_threat_model_rejected_witness :
  mitigations_submit_button run_mitigations = true
  /\ session_state new_session !! session_key = None
  /\ page (rt_rerun (rt_session []) run_mitigations) = [StError validation_threat_model]
  /\ calls (rt_rerun (rt_session []) run_mitigations) = [].
Proof.
  split; [reflexivity|]. split; [reflexivity|].
  apply (mitigations_without_threat_model_rejected sample_py_str sample_interp_msg
           sample_json_loads new_session run_mitigations []); reflexivity.
Defined.

(** The service answers an empty object, then mitigations are asked for. *)
Lemma empty_threat_list_rejected_by_mitigations_witness :
  generation_outcome sample_json_loads run_empty_object = Ok (VDict [])
  /\ page (rt_rerun (rt_rerun new_session run_empty_object) run_mitigations)
     = [StError validation_threat_model].
Proof.
  split; [reflexivity|].
  apply (empty_threat_list_rejected_by_mitigations sample_py_str sample_interp_msg
           sample_json_loads new_session run_empty_object run_mitigations []);
    reflexivity.
Defined.

(** An entry with the threat type only. *)
Lemma malformed_entry_fails_rendering_witness :
  forallb is_object [half_entry] = true
  /\ forallb well_formed_entry [half_entry] = false
  /\ exists k, k ∈ entry_keys
       /\ json_to_markdown sample_py_str (VList [half_entry]) (VList [])
          = Raise (KeyError k).
Proof.
  split; [reflexivity|]. split; [reflexivity|].
  destruct (malformed_entry_fails_rendering sample_py_str sample_interp_msg
              sample_json_loads [half_entry] eq_refl) as [_ H].
  destruct (H eq_refl) as (k & Hk & E & _).
  exists k. split; [exact Hk|apply E].
Defined.

End Witnesses.

(** ** Sample evaluations *)

Example sub_plain : Regex.sub (lit "graph TD") = lit "graph TD".
Proof. reflexivity. Qed.

Example sub_four_backticks : Regex.sub (lit "````") = lit "`".
Proof. reflexivity. Qed.

(** The whitespace after the marker goes with it, indentation of the
    first diagram line included. *)
Example sub_eats_indentation :
  Regex.sub (lit "```mermaid" ++ [nl] ++ lit "  graph TD" ++ [nl] ++ lit "```")
  = lit "graph TD".
Proof. reflexivity. Qed.

(** A text without any fence comes back as it is. *)
Example sub_unfenced :
  Regex.sub (lit "graph TD" ++ [nl] ++ lit "A-->B") = lit "graph TD" ++ [nl] ++ lit "A-->B".
Proof. reflexivity. Qed.

Example auth_list_str_two : auth_list_str [SSO; OAUTH2] = lit "['SSO', 'OAUTH2']".
Proof. reflexivity. Qed.

Example int_str_500 : int_str 500 = lit "500".
Proof. reflexivity. Qed.

(** The table of the specification's one-entry example. *)
Example json_to_markdown_one_entry :
  json_to_markdown sample_py_str (VList [full_entry]) (VList [VStr (lit "X")])
  = Ok (table_header ++ lit "| T | S | I |" ++ [nl]
        ++ [nl; nl] ++ lit "## Improvement Suggestions" ++ [nl; nl]
        ++ lit "- X" ++ [nl]).
Proof. reflexivity. Qed.

Example json_to_markdown_half_entry :
  json_to_markdown sample_py_str (VList [half_entry]) (VList [])
  = Raise (KeyError key_scenario).
Proof. reflexivity. Qed.

(** * Further properties of the code *)

(** ** The substitution on texts in general *)

Section SubstitutionFacts.
Import Regex.

Lemma fence_close_codes : fence_close = [96; 96; 96].
Proof. reflexivity. Qed.

Lemma fence_open_codes :
  fence_open = [96; 96; 96; 109; 101; 114; 109; 97; 105; 100].
Proof. reflexivity. Qed.

Lemma strip_prefix_close_has_fence (s r : str) :
  strip_prefix fence_close s = Some r -> has_fence s = true.
Proof.
  intros H. destruct s as [|c s]; [discriminate H|].
  cbn [has_fence]. rewrite bool_decide_eq_true_2; eauto.
Qed.

Lemma no_fence_strip_close (s : str) :
  has_fence s = false -> strip_prefix fence_close s = None.
Proof.
  intros Hf. destruct (strip_prefix fence_close s) as [r|] eqn:E; [|done].
  apply strip_prefix_close_has_fence in E. congruence.
Qed.

(** Both alternatives need three backticks somewhere ahead. *)
Lemma match_at_no_fence prev (s : str) :
  has_fence s = false -> match_at prev s = None.
Proof.
  intros Hf. unfold match_at, match_open, match_close.
  rewrite (strip_prefix_open_close s) by by apply no_fence_strip_close.
  rewrite no_fence_strip_close by by apply has_fence_drop.
  by destruct (at_bol prev).
Qed.

Lemma sub_loop_no_fence fuel : forall prev (s : str),
  has_fence s = false -> sub_loop fuel prev s = s.
Proof.
  induction fuel as [|fuel IH]; [done|]. intros prev s Hf.
  rewrite sub_loop_step, match_at_no_fence by done.
  destruct s as [|c s]; [done|]. f_equal. apply IH. by eapply has_fence_cons.
Qed.

(** X1: a response without three backticks in a row is returned as it
    is, by the substitution and so by [get_attack_tree]. *)
Theorem sub_without_fence (s : str) api_key model_name prompt w :
  has_fence s = false ->
  sub s = s
  /\ fst (get_attack_tree (service_says s) api_key model_name prompt w) = Ok s.
Proof.
  intros Hf. assert (sub s = s) as E by by apply sub_loop_no_fence.
  split; [done|]. rewrite get_attack_tree_run. cbn. by rewrite E.
Qed.

Lemma sub_without_fence_witness :
  has_fence diagram_example = false /\ sub diagram_example = diagram_example.
Proof.
  split; [reflexivity|].
  apply (sub_without_fence diagram_example [] [] [] new_session). reflexivity.
Defined.

Lemma sub_loop_sublist fuel : forall prev (s : str),
  sub_loop fuel prev s `sublist_of` s.
Proof.
  induction fuel as [|fuel IH]; [done|]. intros prev s.
  rewrite sub_loop_step. destruct (match_at prev s) as [n|].
  - etrans; [apply IH|apply sublist_drop].
  - destruct s as [|c s]; [done|]. apply sublist_skip, IH.
Qed.

(** X2: the substitution only deletes: its result is a subsequence of
    the response, in the same order, and is never longer. *)
Theorem sub_only_deletes (s : str) :
  sub s `sublist_of` s /\ (length (sub s) <= length s)%nat.
Proof.
  assert (sub s `sublist_of` s) as H by apply sub_loop_sublist.
  split; [done|]. by apply sublist_length.
Qed.

End SubstitutionFacts.

(** ** Whitespace and prose around the fenced block *)

Section FenceSurroundings.
Import Regex.

Lemma space_run_all_space (ws t : str) :
  all_space ws = true -> space_run (ws ++ t) = (length ws + space_run t)%nat.
Proof.
  induction ws as [|c ws IH]; [done|]. unfold all_space. cbn [forallb].
  intros [Hc H]%andb_true_iff. cbn [app space_run length]. rewrite Hc.
  by rewrite IH.
Qed.

Lemma all_space_no_backtick (ws : str) :
  all_space (96 :: ws) = true -> False.
Proof.
  unfold all_space. cbn [forallb]. intros [H _]%andb_true_iff.
  vm_compute in H. discriminate.
Qed.

Lemma three_backticks_fence (s : str) : has_fence (96 :: 96 :: 96 :: s) = true.
Proof.
  apply (strip_prefix_close_has_fence _ s). rewrite fence_close_codes.
  by apply strip_prefix_Some.
Qed.

Lemma has_fence_after_line_feed (t : str) :
  has_fence t = false -> at_eol t = true -> has_fence (fence_close ++ t) = true
  /\ strip_prefix fence_open (fence_close ++ t) = None.
Proof.
  intros Hf He. split.
  - rewrite fence_close_codes. apply three_backticks_fence.
  - destruct (strip_prefix fence_open (fence_close ++ t)) as [r|] eqn:E; [|done].
    exfalso. apply strip_prefix_Some in E.
    rewrite fence_close_codes, fence_open_codes in E.
    destruct t as [|c t]; [discriminate E|]. cbn [app] in E.
    injection E as -> _. discriminate He.
Qed.

Lemma space_run_fence_close (t : str) : space_run (fence_close ++ t) = 0%nat.
Proof. reflexivity. Qed.

(** Inside a diagram without fence, three backticks can only be found by
    running into the closing fence, and then more backticks follow. *)
Lemma strip_close_before_fence (s ws t : str) :
  s <> [] -> has_fence s = false -> all_space ws = true ->
  match strip_prefix fence_close (s ++ ws ++ fence_close ++ t) with
  | Some r => at_eol r = false
  | None => True
  end.
Proof.
  intros Hne Hf Hws.
  destruct (strip_prefix fence_close (s ++ ws ++ fence_close ++ t)) as [r|] eqn:E;
    [|done].
  apply strip_prefix_Some in E. rewrite fence_close_codes in E.
  destruct s as [|a [|a' [|a'' s]]]; [done| | |].
  - destruct ws as [|c ws]; cbn [app] in E.
    + by injection E as -> <-.
    + injection E as -> -> _. by destruct (all_space_no_backtick ws).
  - destruct ws as [|c ws]; cbn [app] in E.
    + by injection E as -> -> <-.
    + injection E as -> -> -> _. by destruct (all_space_no_backtick ws).
  - cbn [app] in E. injection E as -> -> -> _.
    by rewrite three_backticks_fence in Hf.
Qed.

Lemma strip_open_before_fence (s ws t : str) :
  s <> [] -> has_fence s = false -> all_space ws = true ->
  strip_prefix fence_open (s ++ ws ++ fence_close ++ t) = None.
Proof.
  intros Hne Hf Hws.
  destruct (strip_prefix fence_open (s ++ ws ++ fence_close ++ t)) as [r|] eqn:E;
    [|done].
  exfalso. apply strip_prefix_Some in E.
  rewrite fence_close_codes, fence_open_codes in E.
  destruct s as [|a [|a' [|a'' s]]]; [done| | |].
  - destruct ws as [|c ws]; cbn [app] in E.
    + discriminate E.
    + injection E as -> -> _. by destruct (all_space_no_backtick ws).
  - destruct ws as [|c ws]; cbn [app] in E.
    + discriminate E.
    + injection E as -> -> -> _. by destruct (all_space_no_backtick ws).
  - cbn [app] in E. injection E as -> -> -> _.
    by rewrite three_backticks_fence in Hf.
Qed.

Lemma match_at_before_fence prev (s ws t : str) :
  s <> [] -> has_fence s = false -> ends_with_space s = false ->
  all_space ws = true ->
  match_at prev (s ++ ws ++ fence_close ++ t) = None.
Proof.
  intros Hne Hf Hl Hws. unfold match_at, match_open, match_close.
  rewrite strip_open_before_fence by done.
  destruct (space_run_inside s (ws ++ fence_close ++ t) Hne Hl) as [-> L].
  rewrite drop_app_le by lia.
  assert (drop (space_run s) s <> []) as Hd.
  { intros E. apply (f_equal length) in E. rewrite length_drop in E.
    simpl in E. lia. }
  pose proof (strip_close_before_fence (drop (space_run s) s) ws t Hd
                (has_fence_drop _ _ Hf) Hws) as H.
  destruct (strip_prefix fence_close _) as [r|]; [rewrite H|];
    by destruct (at_bol prev).
Qed.

(** After a character that is not whitespace, the whitespace and the
    closing fence at the end of a line are one match; what follows the
    fence is copied. *)
Lemma sub_loop_closing_fence fuel c (ws t : str) :
  is_space c = false -> all_space ws = true ->
  at_eol t = true -> has_fence t = false ->
  sub_loop (S fuel) (Some c) (ws ++ fence_close ++ t) = t.
Proof.
  intros Hc Hws He Hf.
  assert (match_at (Some c) (ws ++ fence_close ++ t)
          = Some (length (ws ++ fence_close))) as E.
  { unfold match_at, match_open, match_close, at_bol.
    assert ((c =? nl) = false) as ->.
    { apply N.eqb_neq. intros ->. done. }
    rewrite space_run_all_space by done.
    rewrite space_run_fence_close, Nat.add_0_r.
    rewrite drop_app_length, strip_prefix_app, He. by rewrite length_app. }
  rewrite sub_loop_step, E, app_assoc, drop_app_length.
  by apply sub_loop_no_fence.
Qed.

Lemma sub_loop_before_fence (s ws t : str) : forall fuel prev,
  s <> [] -> has_fence s = false -> ends_with_space s = false ->
  all_space ws = true -> at_eol t = true -> has_fence t = false ->
  (length s < fuel)%nat ->
  sub_loop fuel prev (s ++ ws ++ fence_close ++ t) = s ++ t.
Proof.
  induction s as [|a s IH]; [done|]. intros fuel prev _ Hf Hl Hws He Ht Hfuel.
  destruct fuel as [|fuel]; [simpl in Hfuel; lia|].
  rewrite sub_loop_step, match_at_before_fence by done.
  cbn [app]. f_equal. destruct s as [|b s].
  - destruct fuel as [|fuel]; [simpl in Hfuel; lia|].
    by apply sub_loop_closing_fence.
  - apply IH; [done|by eapply has_fence_cons|exact Hl|done..|simpl in *; lia].
Qed.

Lemma sub_loop_fence_only fuel prev (t : str) :
  at_eol t = true -> has_fence t = false ->
  sub_loop (S fuel) prev (fence_close ++ t) = t.
Proof.
  intros He Hf. rewrite sub_loop_step.
  assert (match_at prev (fence_close ++ t) = Some 3%nat) as ->.
  { unfold match_at, match_open, match_close.
    rewrite (proj2 (has_fence_after_line_feed t Hf He)).
    rewrite space_run_fence_close, drop_0.
    rewrite strip_prefix_app, He. by destruct (at_bol prev). }
  rewrite fence_close_codes. cbn [app drop]. by apply sub_loop_no_fence.
Qed.

(** The scan from the marker, standing at the start of a line, to the
    end of the text. *)
Lemma sub_loop_fenced_block fuel prev (ws1 body ws2 t : str) :
  at_bol prev = true ->
  all_space ws1 = true -> all_space ws2 = true ->
  has_fence body = false ->
  starts_with_space body = false -> ends_with_space body = false ->
  at_eol t = true -> has_fence t = false ->
  (length (fence_open ++ ws1 ++ body ++ ws2 ++ fence_close ++ t) <= fuel)%nat ->
  sub_loop fuel prev (fence_open ++ ws1 ++ body ++ ws2 ++ fence_close ++ t)
  = body ++ t.
Proof.
  intros Hp H1 H2 Hf Hs He Ht Hft Hfuel.
  set (text := fence_open ++ ws1 ++ body ++ ws2 ++ fence_close ++ t) in *.
  assert (length text
          = (length ws1 + length body + length ws2 + length t + 13)%nat) as Hlen.
  { unfold text. rewrite !length_app. change (length fence_open) with 10%nat.
    change (length fence_close) with 3%nat. lia. }
  destruct fuel as [|fuel]; [lia|]. rewrite sub_loop_step.
  destruct body as [|c body].
  - assert (match_at prev text = Some (length (fence_open ++ ws1 ++ ws2))) as ->.
    { unfold match_at, match_open, text. rewrite Hp, strip_prefix_app.
      cbn [app]. rewrite !space_run_all_space by done.
      rewrite space_run_fence_close.
      rewrite !length_app. do 2 f_equal. lia. }
    unfold text. cbn [app].
    replace (fence_open ++ ws1 ++ ws2 ++ fence_close ++ t)
      with ((fence_open ++ ws1 ++ ws2) ++ fence_close ++ t)
      by (by rewrite <- !app_assoc).
    rewrite drop_app_length.
    destruct fuel as [|fuel]; [lia|]. by apply sub_loop_fence_only.
  - assert (match_at prev text = Some (length (fence_open ++ ws1))) as ->.
    { unfold match_at, match_open, text. rewrite Hp, strip_prefix_app.
      rewrite space_run_all_space by done. simpl in Hs.
      cbn [app space_run]. rewrite Hs, length_app. do 2 f_equal. lia. }
    unfold text.
    replace (fence_open ++ ws1 ++ (c :: body) ++ ws2 ++ fence_close ++ t)
      with ((fence_open ++ ws1) ++ (c :: body) ++ ws2 ++ fence_close ++ t)
      by (by rewrite <- !app_assoc).
    rewrite drop_app_length.
    apply sub_loop_before_fence; [done..|]. simpl in *. lia.
Qed.

(** X3: whatever whitespace stands between the marker and the diagram
    and between the diagram and the closing fence (line feeds, carriage
    returns, blanks, or none at all) is removed with the fences: the
    result is the diagram, for a diagram without fence that neither
    starts nor ends with whitespace. *)
Theorem sub_fences_and_whitespace (ws1 body ws2 : str) :
  all_space ws1 = true ->
  all_space ws2 = true ->
  has_fence body = false ->
  starts_with_space body = false ->
  ends_with_space body = false ->
  sub (fence_open ++ ws1 ++ body ++ ws2 ++ fence_close) = body.
Proof.
  intros H1 H2 Hf Hs He. unfold sub.
  pose proof (sub_loop_fenced_block
                (length (fence_open ++ ws1 ++ body ++ ws2 ++ fence_close ++ []))
                None ws1 body ws2 [] eq_refl H1 H2 Hf Hs He eq_refl eq_refl
                (le_n _)) as H.
  rewrite !app_nil_r in H. exact H.
Qed.

(** The example of the specification with Windows line ends. *)
Lemma sub_fences_and_whitespace_witness :
  all_space [13; nl] = true
  /\ has_fence diagram_crlf = false
  /\ sub (fence_open ++ [13; nl] ++ diagram_crlf ++ [13; nl] ++ fence_close)
     = diagram_crlf.
Proof.
  split; [reflexivity|]. split; [reflexivity|].
  apply (sub_fences_and_whitespace [13; nl] diagram_crlf [13; nl]); reflexivity.
Defined.

Lemma match_close_before_marker (s x : str) :
  has_fence s = false -> match_close (s ++ nl :: fence_open ++ x) = None.
Proof.
  induction s as [|c s IH]; intros Hf; [reflexivity|].
  pose proof (IH (has_fence_cons _ _ Hf)) as H.
  unfold match_close in *. cbn [app space_run].
  destruct (is_space c).
  - cbn [drop]. destruct (strip_prefix fence_close _) as [r|]; [|done].
    by destruct (at_eol r).
  - rewrite drop_0.
    pose proof (no_fence_no_close (c :: s) (fence_open ++ x) ltac:(done) Hf) as E.
    cbn [app] in E. by rewrite E.
Qed.

Lemma match_at_before_marker prev (s x : str) :
  has_fence s = false -> match_at prev (s ++ nl :: fence_open ++ x) = None.
Proof.
  intros Hf. unfold match_at, match_open.
  rewrite match_close_before_marker by done.
  assert (strip_prefix fence_open (s ++ nl :: fence_open ++ x) = None) as ->.
  { destruct s as [|c s]; [reflexivity|].
    apply strip_prefix_open_close. by apply no_fence_no_close. }
  by destruct (at_bol prev).
Qed.

Lemma sub_loop_before_marker (s ws1 body ws2 t : str) : forall fuel prev,
  has_fence s = false ->
  all_space ws1 = true -> all_space ws2 = true ->
  has_fence body = false ->
  starts_with_space body = false -> ends_with_space body = false ->
  at_eol t = true -> has_fence t = false ->
  (length (s ++ nl :: fence_open ++ ws1 ++ body ++ ws2 ++ fence_close ++ t)
   <= fuel)%nat ->
  sub_loop fuel prev
    (s ++ nl :: fence_open ++ ws1 ++ body ++ ws2 ++ fence_close ++ t)
  = s ++ nl :: body ++ t.
Proof.
  induction s as [|c s IH]; intros fuel prev Hs H1 H2 Hf Hb He Ht Hft Hfuel;
    cbn [app length] in Hfuel; (destruct fuel as [|fuel]; [lia|]);
    rewrite sub_loop_step, match_at_before_marker by done; cbn [app]; f_equal.
  - apply sub_loop_fenced_block; [done..|]. lia.
  - apply IH; [by eapply has_fence_cons|done..|]. lia.
Qed.

(** X4: prose around the fenced block stays in the result.  Lines
    before the marker line and lines after the closing fence are copied,
    only the two fences and the whitespace next to the diagram go, so the
    text handed to the page is the prose with the diagram in between. *)
Theorem sub_keeps_surrounding_prose (pre ws1 body ws2 post : str) :
  has_fence pre = false ->
  all_space ws1 = true ->
  all_space ws2 = true ->
  has_fence body = false ->
  starts_with_space body = false ->
  ends_with_space body = false ->
  at_eol post = true ->
  has_fence post = false ->
  sub (pre ++ [nl] ++ fence_open ++ ws1 ++ body ++ ws2 ++ fence_close ++ post)
  = pre ++ [nl] ++ body ++ post.
Proof.
  intros Hp H1 H2 Hf Hs He Ht Hft. unfold sub.
  by apply sub_loop_before_marker.
Qed.

Lemma sub_keeps_surrounding_prose_witness :
  has_fence prose_before = false
  /\ at_eol prose_after = true
  /\ has_fence prose_after = false
  /\ sub (prose_before ++ [nl] ++ fence_open ++ [nl] ++ diagram_example
            ++ [nl] ++ fence_close ++ prose_after)
     = prose_before ++ [nl] ++ diagram_example ++ prose_after.
Proof.
  split; [reflexivity|]. split; [reflexivity|]. split; [reflexivity|].
  apply (sub_keeps_surrounding_prose prose_before [nl] diagram_example [nl]
           prose_after); reflexivity.
Defined.

End FenceSurroundings.

(** ** The renderer as a whole *)

Section RendererFacts.

Variable py_str : pyval -> str.

Lemma threat_row_text v :
  well_formed_entry v = true -> threat_row py_str v = Ok (row_text py_str v).
Proof.
  unfold well_formed_entry, entry_keys. cbn [forallb].
  rewrite !andb_true_iff. intros (H1 & H2 & H3 & _).
  destruct v; try done. unfold has_key in *.
  apply bool_decide_eq_true in H1 as [a Ha], H2 as [b Hb], H3 as [c Hc].
  unfold threat_row, row_text, entry_field, subscript, mbind, res_bind,
    mret, res_ret.
  by rewrite Ha, Hb, Hc.
Qed.

Lemma threat_rows_text entries : forall acc,
  forallb well_formed_entry entries = true ->
  threat_rows py_str acc entries
  = Ok (acc ++ concat (List.map (row_text py_str) entries)).
Proof.
  induction entries as [|v entries IH]; intros acc H.
  - cbn. by rewrite app_nil_r.
  - cbn [forallb] in H. apply andb_true_iff in H as [Hv H].
    cbn [threat_rows List.map concat]. unfold mbind, res_bind.
    rewrite threat_row_text, IH by done. by rewrite <- app_assoc.
Qed.

Lemma suggestion_lines_text suggestions : forall acc,
  suggestion_lines py_str acc suggestions
  = acc ++ concat (List.map (suggestion_text py_str) suggestions).
Proof.
  induction suggestions as [|v suggestions IH]; intros acc.
  - cbn. by rewrite app_nil_r.
  - cbn [suggestion_lines List.map concat]. rewrite IH.
    unfold suggestion_text. by rewrite <- !app_assoc.
Qed.

(** X5: for entries that all have the three keys, the markdown is the
    header, one row per entry in the order of the list, the heading, and
    one line per suggestion in the order of the list. *)
Theorem json_to_markdown_table entries suggestions :
  forallb well_formed_entry entries = true ->
  json_to_markdown py_str (VList entries) (VList suggestions)
  = Ok (table_header
        ++ concat (List.map (row_text py_str) entries)
        ++ suggestions_heading
        ++ concat (List.map (suggestion_text py_str) suggestions)).
Proof.
  intros H. unfold json_to_markdown, iterate, mbind, res_bind, mret, res_ret.
  rewrite threat_rows_text by done. rewrite suggestion_lines_text.
  unfold suggestions_heading. by rewrite <- !app_assoc.
Qed.

Lemma threat_row_not_object v :
  is_object v = false -> threat_row py_str v = Raise (TypeError_index v).
Proof. by destruct v. Qed.

Lemma threat_row_first_missing d k :
  first_missing d = Some k -> threat_row py_str (VDict d) = Raise (KeyError k).
Proof.
  unfold first_missing, entry_keys. cbn [List.find].
  unfold threat_row, subscript, mbind, res_bind.
  destruct (assoc key_threat_type d) as [a|];
    [rewrite bool_decide_eq_true_2 by eauto|
     rewrite bool_decide_eq_false_2 by (by intros [? ?]); by intros [= <-]].
  destruct (assoc key_scenario d) as [b|];
    [rewrite bool_decide_eq_true_2 by eauto|
     rewrite bool_decide_eq_false_2 by (by intros [? ?]); by intros [= <-]].
  destruct (assoc key_potential_impact d) as [c|];
    [rewrite bool_decide_eq_true_2 by eauto|
     rewrite bool_decide_eq_false_2 by (by intros [? ?]); by intros [= <-]].
  done.
Qed.

Lemma threat_rows_first_failure good v rest e : forall acc,
  forallb well_formed_entry good = true ->
  threat_row py_str v = Raise e ->
  threat_rows py_str acc (good ++ v :: rest) = Raise e.
Proof.
  induction good as [|g good IH]; intros acc H Hv.
  - cbn [app threat_rows]. unfold mbind, res_bind. by rewrite Hv.
  - cbn [forallb] in H. apply andb_true_iff in H as [Hg H].
    cbn [app threat_rows]. unfold mbind, res_bind.
    rewrite threat_row_text by done. by apply IH.
Qed.

(** X6: the first entry that cannot be rendered decides the exception,
    whatever follows it and whatever the suggestions are: [TypeError] for
    an entry that is not an object, [KeyError] of the first key it lacks
    (in the order "Threat Type", "Scenario", "Potential Impact") for an
    object. *)
Theorem first_bad_entry_decides good v rest suggestions :
  forallb well_formed_entry good = true ->
  (is_object v = false ->
   json_to_markdown py_str (VList (good ++ v :: rest)) suggestions
   = Raise (TypeError_index v))
  /\ (forall d k, v = VDict d -> first_missing d = Some k ->
      json_to_markdown py_str (VList (good ++ v :: rest)) suggestions
      = Raise (KeyError k)).
Proof.
  intros H. split.
  - intros Hv. unfold json_to_markdown, iterate, mbind, res_bind.
    by rewrite (threat_rows_first_failure good v rest (TypeError_index v))
      by (done || by apply threat_row_not_object).
  - intros d k -> Hk. unfold json_to_markdown, iterate, mbind, res_bind.
    by rewrite (threat_rows_first_failure good (VDict d) rest (KeyError k))
      by (done || by apply threat_row_first_missing).
Qed.

End RendererFacts.

(** One good entry, then an entry with the threat type only, then a
    number: the missing scenario is reported. *)
Lemma first_bad_entry_decides_witness :
  forallb well_formed_entry [full_entry] = true
  /\ first_missing [(key_threat_type, VStr (lit "Spoofing"))] = Some key_scenario
  /\ json_to_markdown sample_py_str
       (VList ([full_entry] ++ half_entry :: [VInt 7])) VNone
     = Raise (KeyError key_scenario).
Proof.
  split; [reflexivity|]. split; [reflexivity|].
  apply (proj2 (first_bad_entry_decides sample_py_str [full_entry] half_entry
                  [VInt 7] VNone eq_refl) _ key_scenario eq_refl eq_refl).
Defined.

Lemma json_to_markdown_table_witness :
  forallb well_formed_entry [full_entry; full_entry] = true
  /\ json_to_markdown sample_py_str (VList [full_entry; full_entry])
       (VList [VStr (lit "X")])
     = Ok (table_header ++ lit "| T | S | I |" ++ [nl] ++ lit "| T | S | I |" ++ [nl]
           ++ suggestions_heading ++ lit "- X" ++ [nl]).
Proof.
  split; [reflexivity|].
  apply (json_to_markdown_table sample_py_str [full_entry; full_entry]
           [VStr (lit "X")]). reflexivity.
Defined.

(** ** The handlers on their other paths *)

Section HandlerPaths.

Variable py_str : pyval -> str.
Variable interp_msg : exn -> str.
Variable json_loads : str -> res pyval.

Local Abbreviation tm_section := (threat_model_section py_str interp_msg json_loads).
Local Abbreviation at_section := (attack_tree_section interp_msg).
Local Abbreviation mit_section := (mitigations_section py_str interp_msg).
Local Abbreviation the_script := (script py_str interp_msg json_loads).
Local Abbreviation the_rerun := (rerun py_str interp_msg json_loads).
Local Abbreviation the_session := (session py_str interp_msg json_loads).
Local Abbreviation outcome := (generation_outcome json_loads).
Local Abbreviation render := (json_to_markdown py_str).
Local Abbreviation message := (exn_str interp_msg).

(** X7: when the response parses to an object and its list renders, the
    handler makes one request, stores the list, shows the table and
    offers that same table for download under the fixed file name and
    media type. *)
Theorem threat_model_success w i d markdown_output :
  threat_model_submit_button i = true ->
  str_truthy (app_input i) = true ->
  outcome i = Ok (VDict d) ->
  render (from_option id (VList []) (assoc session_key d))
    (from_option id (VList []) (assoc (lit "improvement_suggestions") d))
  = Ok markdown_output ->
  tm_section i w =
  (Ok (),
   {| session_state :=
        <[session_key := from_option id (VList []) (assoc session_key d)]>
          (session_state w);
      page := page w ++ [spinner_threats;
                         StMarkdown markdown_output;
                         StDownloadButton (lit "Download Threat Model")
                           markdown_output (lit "stride_gpt_threat_model.md")
                           (lit "text/markdown") None];
      calls := calls w ++ [threat_model_request i] |}).
Proof.
  intros Hb Hd Hg Hr.
  rewrite (threat_model_section_object py_str interp_msg json_loads i w d Hb Hd Hg).
  cbv zeta. rewrite Hr. unfold write_page, store, log_call.
  cbn [session_state page calls]. by rewrite <- !app_assoc.
Qed.

(** X8: an attack-tree request that is answered shows the stripped code,
    the diagram page built from the same code, and a download of the same
    code; one request is made, not in JSON mode, and the session is not
    touched. *)
Theorem attack_tree_success w i content :
  attack_tree_submit_button i = true ->
  str_truthy (app_input i) = true ->
  service i (attack_tree_request i) = Completes content ->
  at_section i w =
  (Ok (),
   {| session_state := session_state w;
      page := page w ++ [spinner_attack_tree;
                         StWrite (lit "Attack Tree Code:");
                         StCode (Regex.sub content);
                         StWrite (lit "Attack Tree Diagram Preview:");
                         StHtml (mermaid_html (Regex.sub content) 500) 500;
                         StDownloadButton (lit "Download Diagram Code")
                           (Regex.sub content) (lit "attack_tree.md")
                           (lit "text/plain")
                           (Some (lit "Download the Mermaid code for the attack tree diagram."))];
      calls := calls w ++ [attack_tree_request i] |})
  /\ req_json_object (attack_tree_request i) = false.
Proof.
  intros Hb Hd Hs. split; [|done]. run. run_in Hs. rewrite Hb, Hd, Hs.
  cbn [andb]. unfold write_page, log_call. cbn [session_state page calls].
  by rewrite <- !app_assoc.
Qed.

(** X9: an attack-tree request that fails is reported as "Error
    generating attack tree: <message>" and nothing else is shown; unlike
    the threat-model handler, this one returns normally, so the rest of
    the script still runs. *)
Theorem attack_tree_failure w i msg :
  attack_tree_submit_button i = true ->
  str_truthy (app_input i) = true ->
  service i (attack_tree_request i) = Fails msg ->
  at_section i w =
  (Ok (),
   {| session_state := session_state w;
      page := page w ++ [spinner_attack_tree;
                         StError (lit "Error generating attack tree: " ++ msg)];
      calls := calls w ++ [attack_tree_request i] |}).
Proof.
  intros Hb Hd Hs. run. run_in Hs. rewrite Hb, Hd, Hs.
  cbn [andb]. unfold write_page, log_call. cbn [session_state page calls exn_str].
  by rewrite <- !app_assoc.
Qed.

(** X10: with a stored list that renders, the mitigations handler sends
    one request whose prompt holds the rendered table, shows the answer
    as it came and offers the same text for download. *)
Theorem mitigations_success w i v table content :
  mitigations_submit_button i = true ->
  session_state w !! session_key = Some v ->
  truthy v = true ->
  render v (VList []) = Ok table ->
  service i (mitigations_request i table) = Completes content ->
  mit_section i w =
  (Ok (),
   {| session_state := session_state w;
      page := page w ++ [spinner_mitigations;
                         StMarkdown content;
                         StDownloadButton (lit "Download Mitigations") content
                           (lit "mitigations.md") (lit "text/markdown") None];
      calls := calls w ++ [mitigations_request i table] |})
  /\ contains (req_user (mitigations_request i table)) table.
Proof.
  intros Hb Hl Ht Hr Hs. split.
  - run. run_in Hs. rewrite Hb, Hl, Ht, Hr, Hs.
    unfold write_page, log_call. cbn [session_state page calls].
    by rewrite <- !app_assoc.
  - cbn [req_user mitigations_request]. unfold create_mitigations_prompt.
    repeat first [apply contains_app_r, contains_refl | apply contains_app_l].
Qed.

(** X11: a mitigations request that fails is reported as "Error
    suggesting mitigations: <message>"; no table and no download button
    are shown, and the handler returns normally. *)
Theorem mitigations_failure w i v table msg :
  mitigations_submit_button i = true ->
  session_state w !! session_key = Some v ->
  truthy v = true ->
  render v (VList []) = Ok table ->
  service i (mitigations_request i table) = Fails msg ->
  mit_section i w =
  (Ok (),
   {| session_state := session_state w;
      page := page w ++ [spinner_mitigations;
                         StError (lit "Error suggesting mitigations: " ++ msg)];
      calls := calls w ++ [mitigations_request i table] |}).
Proof.
  intros Hb Hl Ht Hr Hs. run. run_in Hs. rewrite Hb, Hl, Ht, Hr, Hs.
  unfold write_page, log_call. cbn [session_state page calls exn_str].
  by rewrite <- !app_assoc.
Qed.

(** *** What a run may write and send *)

Lemma tm_section_calls i w :
  calls (snd (tm_section i w)) =
  calls w ++ (if threat_model_submit_button i && str_truthy (app_input i)
              then [threat_model_request i] else []).
Proof.
  destruct (threat_model_submit_button i) eqn:Hb.
  2: { rewrite threat_model_section_idle by done. cbn. by rewrite app_nil_r. }
  destruct (str_truthy (app_input i)) eqn:Hd.
  2: { rewrite threat_model_section_empty by done. cbn. by rewrite app_nil_r. }
  cbn [andb]. destruct (outcome i) as [v|e] eqn:Hg.
  2: { by erewrite threat_model_section_failed. }
  destruct v; try (by erewrite threat_model_section_not_object).
  erewrite threat_model_section_object by done.
  by destruct (json_to_markdown _ _ _).
Qed.

Lemma at_section_calls i w :
  calls (snd (at_section i w)) =
  calls w ++ (if attack_tree_submit_button i && str_truthy (app_input i)
              then [attack_tree_request i] else []).
Proof.
  run. destruct (_ && _); [|cbn; by rewrite app_nil_r].
  by destruct (service i _).
Qed.

Lemma mit_section_calls i w :
  exists l, calls (snd (mit_section i w)) = calls w ++ l
    /\ (length l <= Nat.b2n (mitigations_submit_button i))%nat
    /\ Forall (with_credentials i) l.
Proof.
  assert (forall b (w' : world), calls w' = calls w ->
            exists l, calls w' = calls w ++ l
              /\ (length l <= Nat.b2n b)%nat /\ Forall (with_credentials i) l)
    as Hnone.
  { intros b w' E. exists []. rewrite app_nil_r. split; [done|].
    split; [simpl; lia|done]. }
  run. destruct (mitigations_submit_button i); [|by apply Hnone].
  destruct (session_state w !! session_key) as [v|]; [|by apply Hnone].
  destruct (truthy v); [|by apply Hnone].
  destruct (json_to_markdown _ _ _) as [table|e]; [|by apply Hnone].
  exists [mitigations_request i table].
  split; [by destruct (service i _)|]. split; [done|].
  by repeat constructor.
Qed.

(** X12: a run sends at most one request for each pressed button and
    none without a button, each with the key and the model selected in
    that run; this holds on every path, failures included. *)
Theorem requests_bounded_by_buttons w i :
  exists l, calls (the_rerun w i) = calls w ++ l
    /\ (length l <= pressed i)%nat
    /\ Forall (with_credentials i) l.
Proof.
  unfold rerun, script, mbind, M_bind, pressed.
  set (w0 := {| session_state := session_state w; page := []; calls := calls w |}).
  pose proof (tm_section_calls i w0) as H1.
  destruct (tm_section i w0) as [r1 w1]. cbn [snd] in H1.
  change (calls w0) with (calls w) in H1.
  assert (exists l1, calls w1 = calls w ++ l1
            /\ (length l1 <= Nat.b2n (threat_model_submit_button i))%nat
            /\ Forall (with_credentials i) l1) as (l1 & E1 & L1 & F1).
  { rewrite H1. destruct (threat_model_submit_button i); [|by exists []].
    destruct (str_truthy (app_input i)); [|exists []; split; [done|]; split; [simpl; lia|done]].
    exists [threat_model_request i]. split; [done|]. split; [done|].
    by repeat constructor. }
  destruct r1 as [[]|e].
  2: { exists l1. cbn [snd]. split; [done|]. split; [lia|done]. }
  pose proof (at_section_calls i w1) as H2.
  destruct (at_section i w1) as [r2 w2]. cbn [snd] in H2.
  assert (exists l2, calls w2 = calls w1 ++ l2
            /\ (length l2 <= Nat.b2n (attack_tree_submit_button i))%nat
            /\ Forall (with_credentials i) l2) as (l2 & E2 & L2 & F2).
  { rewrite H2. destruct (attack_tree_submit_button i); [|by exists []].
    destruct (str_truthy (app_input i)); [|exists []; split; [done|]; split; [simpl; lia|done]].
    exists [attack_tree_request i]. split; [done|]. split; [done|].
    by repeat constructor. }
  destruct r2 as [[]|e].
  2: { exists (l1 ++ l2). cbn [snd]. rewrite E2, E1, <- app_assoc.
       split; [done|]. rewrite length_app. split; [lia|by apply Forall_app]. }
  destruct (mit_section_calls i w2) as (l3 & E3 & L3 & F3).
  exists (l1 ++ l2 ++ l3). rewrite E3, E2, E1, <- !app_assoc.
  split; [done|]. rewrite !length_app. split; [lia|].
  by rewrite !Forall_app.
Qed.

(** X13: a run writes no key of the session other than 'threat_model',
    so the entries the widgets keep there are never overwritten; and that
    key changes only in a run whose generation parsed to an object. *)
Theorem session_other_keys_untouched w i k :
  str_eqb k session_key = false ->
  session_state (the_rerun w i) !! k = session_state w !! k
  /\ (parsed_threats json_loads i = None ->
      session_state (the_rerun w i) = session_state w).
Proof.
  intros Hk%bool_decide_eq_false. rewrite rerun_state.
  destruct (parsed_threats json_loads i); [|done].
  split; [by rewrite lookup_insert_ne|done].
Qed.

(** X14: the list of a response is stored before the table is built:
    when the list cannot be rendered, the run shows the error and stops at
    the download button, and the session nevertheless holds the new list
    in place of the one it had. *)
Theorem unrenderable_list_replaces_stored w i d e :
  threat_model_submit_button i = true ->
  str_truthy (app_input i) = true ->
  outcome i = Ok (VDict d) ->
  render (from_option id (VList []) (assoc session_key d))
    (from_option id (VList []) (assoc (lit "improvement_suggestions") d))
  = Raise e ->
  session_state (the_rerun w i) !! session_key
  = Some (from_option id (VList []) (assoc session_key d))
  /\ fst (the_script i (cleared w)) = Raise unbound_markdown_output
  /\ page (the_rerun w i)
     = [spinner_threats;
        StError (lit "Error generating threat model: " ++ message e)].
Proof.
  intros Hb Hd Hg Hr. split.
  - rewrite rerun_state. unfold parsed_threats. rewrite Hb, Hd, Hg.
    apply lookup_insert_eq.
  - unfold rerun, script, mbind, M_bind. fold (cleared w).
    rewrite (threat_model_section_object py_str interp_msg json_loads i
               (cleared w) d Hb Hd Hg).
    cbv zeta. by rewrite Hr.
Qed.

(** X15: a response that parses to something other than an object (an
    array, a string, a number) is reported through the missing [get]
    method; the session is left as it was and no table or button is
    shown. *)
Theorem non_object_response_reported w i v :
  threat_model_submit_button i = true ->
  str_truthy (app_input i) = true ->
  outcome i = Ok v ->
  is_object v = false ->
  session_state (the_rerun w i) = session_state w
  /\ fst (the_script i (cleared w)) = Raise unbound_markdown_output
  /\ page (the_rerun w i)
     = [spinner_threats;
        StError (lit "Error generating threat model: "
                   ++ message (AttributeError_get v))].
Proof.
  intros Hb Hd Hg Hv.
  assert (forall d, v <> VDict d) as Hn by (by intros d ->).
  split.
  - rewrite rerun_state. unfold parsed_threats. rewrite Hb, Hd, Hg.
    by destruct v.
  - unfold rerun, script, mbind, M_bind. fold (cleared w).
    by rewrite (threat_model_section_not_object py_str interp_msg json_loads i
                  (cleared w) v Hb Hd Hg Hn).
Qed.

(** X16: a mitigations run after a generation whose entries all have the
    three keys sends exactly one request, and its prompt is built from the
    table of those entries, in their order, with an empty suggestions
    part. *)
Theorem mitigations_prompt_from_last_generation w i1 i2 d entries :
  threat_model_submit_button i1 = true ->
  str_truthy (app_input i1) = true ->
  outcome i1 = Ok (VDict d) ->
  assoc session_key d = Some (VList entries) ->
  truthy (VList entries) = true ->
  forallb well_formed_entry entries = true ->
  mitigations_submit_button i2 = true ->
  threat_model_submit_button i2 = false ->
  attack_tree_submit_button i2 = false ->
  calls (the_rerun (the_rerun w i1) i2)
  = calls (the_rerun w i1)
    ++ [mitigations_request i2
          (table_header ++ concat (List.map (row_text py_str) entries)
           ++ suggestions_heading)].
Proof.
  intros Hb Hd Hg Hl Ht Hw Hm Hb2 Ha2.
  assert (session_state (the_rerun w i1) !! session_key = Some (VList entries))
    as Hs.
  { rewrite rerun_state. unfold parsed_threats. rewrite Hb, Hd, Hg, Hl.
    apply lookup_insert_eq. }
  remember (the_rerun w i1) as w1 eqn:Ew. clear Ew.
  unfold rerun. rewrite script_only_mitigations by done.
  pose proof (json_to_markdown_table py_str entries [] Hw) as Hr.
  cbn [List.map concat] in Hr. rewrite app_nil_r in Hr.
  run. rewrite Hm. cbv beta. cbn [session_state]. rewrite Hs, Ht, Hr.
  by destruct (service i2 _).
Qed.

End HandlerPaths.

(** ** The other prompt and the diagram page *)

Section OtherBuilders.

Lemma contains_cons c (s x : str) : contains s x -> contains (c :: s) x.
Proof. intros (pre & post & ->). by exists (c :: pre), post. Qed.

(** X17: the attack-tree prompt holds the same six labelled lines as the
    threat-model prompt, each with the field as it is printed, followed by
    the instruction to answer in Mermaid syntax. *)
Theorem attack_tree_prompt_embeds_profile (i : inputs) :
  let prompt := req_user (attack_tree_request i) in
  contains prompt (lit "APPLICATION TYPE: " ++ app_kind_label (app_type i) ++ [nl])
  /\ contains prompt
       (lit "AUTHENTICATION METHODS: " ++ auth_list_str (authentication i) ++ [nl])
  /\ contains prompt
       (lit "INTERNET FACING: " ++ yes_no_label (internet_facing i) ++ [nl])
  /\ contains prompt
       (lit "SENSITIVE DATA: " ++ sensitivity_label (sensitive_data i) ++ [nl])
  /\ contains prompt
       (lit "PRIVILEGED ACCESS MANAGEMENT: " ++ yes_no_label (pam i) ++ [nl])
  /\ contains prompt (lit "APPLICATION DESCRIPTION: " ++ app_input i ++ [nl])
  /\ contains prompt
       (lit "Please provide the attack tree in Mermaid syntax as your response.").
Proof.
  cbv zeta. cbn [req_user attack_tree_request].
  assert (contains
            (create_attack_tree_prompt (app_kind_label (app_type i))
               (authentication i) (yes_no_label (internet_facing i))
               (sensitivity_label (sensitive_data i)) (yes_no_label (pam i))
               (app_input i))
            (profile_lines (app_kind_label (app_type i))
               (authentication i) (yes_no_label (internet_facing i))
               (sensitivity_label (sensitive_data i)) (yes_no_label (pam i))
               (app_input i))) as Hblock.
  { unfold create_attack_tree_prompt.
    apply contains_app_l, contains_app_r, contains_refl. }
  destruct (profile_lines_embed (app_kind_label (app_type i))
              (authentication i) (yes_no_label (internet_facing i))
              (sensitivity_label (sensitive_data i)) (yes_no_label (pam i))
              (app_input i)) as (H1 & H2 & H3 & H4 & H5 & H6).
  repeat split; try (eapply contains_trans; [exact Hblock|done]).
  unfold create_attack_tree_prompt.
  do 3 apply contains_app_l. apply contains_app_r, contains_refl.
Qed.

(** X18: the page fragment of [mermaid] holds the code as it is given,
    with no character escaped or removed, between the opening and the
    closing tag, and the height in the style of the opening tag. *)
Theorem mermaid_html_embeds_code (code : str) (height : Z) :
  contains (mermaid_html code height)
    (lit "            " ++ code ++ [nl] ++ lit "        </pre>")
  /\ contains (mermaid_html code height)
       (lit "height: " ++ int_str height ++ lit "px;").
Proof.
  unfold mermaid_html. split.
  - do 4 apply contains_app_l. apply contains_cons. do 6 apply contains_app_l.
    eexists [], _. cbn [app]. by rewrite <- !app_assoc.
  - do 4 apply contains_app_l. apply contains_cons.
    eexists [], _. cbn [app]. by rewrite <- !app_assoc.
Qed.

End OtherBuilders.


(** ** The further statements at sample runs *)

Section MoreWitnesses.

Local Abbreviation rt_more_section :=
  (threat_model_section sample_py_str sample_interp_msg sample_json_loads_more).
Local Abbreviation rt_more_rerun :=
  (rerun sample_py_str sample_interp_msg sample_json_loads_more).
Local Abbreviation rt_mitigations :=
  (mitigations_section sample_py_str sample_interp_msg).
Local Abbreviation rt_half_rerun :=
  (rerun sample_py_str sample_interp_msg sample_json_loads).

(** One well-formed entry and one suggestion. *)
Lemma threat_model_success_witness :
  generation_outcome sample_json_loads_more run_full_entry = Ok (VDict sample_object)
  /\ page (snd (rt_more_section run_full_entry new_session))
     = [spinner_threats;
        StMarkdown sample_table;
        StDownloadButton (lit "Download Threat Model") sample_table
          (lit "stride_gpt_threat_model.md") (lit "text/markdown") None].
Proof.
  split; [reflexivity|].
  exact (f_equal (fun r => page (snd r))
           (threat_model_success sample_py_str sample_interp_msg
              sample_json_loads_more new_session run_full_entry sample_object
              sample_table eq_refl eq_refl eq_refl eq_refl)).
Defined.

(** The fenced example is answered: the code shown is the diagram. *)
Lemma attack_tree_success_witness :
  service run_attack_tree (attack_tree_request run_attack_tree)
    = Completes (fenced diagram_example)
  /\ page (snd (attack_tree_section sample_interp_msg run_attack_tree new_session))
     = [spinner_attack_tree;
        StWrite (lit "Attack Tree Code:");
        StCode diagram_example;
        StWrite (lit "Attack Tree Diagram Preview:");
        StHtml (mermaid_html diagram_example 500) 500;
        StDownloadButton (lit "Download Diagram Code") diagram_example
          (lit "attack_tree.md") (lit "text/plain")
          (Some (lit "Download the Mermaid code for the attack tree diagram."))].
Proof.
  split; [reflexivity|].
  exact (f_equal (fun r => page (snd r))
           (proj1 (attack_tree_success sample_interp_msg new_session
                     run_attack_tree (fenced diagram_example)
                     eq_refl eq_refl eq_refl))).
Defined.

Lemma attack_tree_failure_witness :
  service run_attack_tree_down (attack_tree_request run_attack_tree_down)
    = Fails (lit "Connection error.")
  /\ attack_tree_section sample_interp_msg run_attack_tree_down new_session
     = (Ok (),
        {| session_state := ∅;
           page := [spinner_attack_tree;
                    StError (lit "Error generating attack tree: Connection error.")];
           calls := [attack_tree_request run_attack_tree_down] |}).
Proof.
  split; [reflexivity|].
  exact (attack_tree_failure sample_interp_msg new_session run_attack_tree_down
           (lit "Connection error.") eq_refl eq_refl eq_refl).
Defined.

(** A session with one entry: the answer is shown as it came. *)
Lemma mitigations_success_witness :
  session_state world_with_entry !! session_key = Some (VList [full_entry])
  /\ json_to_markdown sample_py_str (VList [full_entry]) (VList [])
     = Ok sample_threats_table
  /\ page (snd (rt_mitigations run_mitigations_answered world_with_entry))
     = [spinner_mitigations;
        StMarkdown mitigations_text;
        StDownloadButton (lit "Download Mitigations") mitigations_text
          (lit "mitigations.md") (lit "text/markdown") None].
Proof.
  split; [reflexivity|]. split; [reflexivity|].
  exact (f_equal (fun r => page (snd r))
           (proj1 (mitigations_success sample_py_str sample_interp_msg
                     world_with_entry run_mitigations_answered
                     (VList [full_entry]) sample_threats_table mitigations_text
                     eq_refl eq_refl eq_refl eq_refl eq_refl))).
Defined.

Lemma mitigations_failure_witness :
  truthy (VList [full_entry]) = true
  /\ page (snd (rt_mitigations run_mitigations world_with_entry))
     = [spinner_mitigations;
        StError (lit "Error suggesting mitigations: Connection error.")].
Proof.
  split; [reflexivity|].
  exact (f_equal (fun r => page (snd r))
           (mitigations_failure sample_py_str sample_interp_msg
              world_with_entry run_mitigations (VList [full_entry])
              sample_threats_table (lit "Connection error.")
              eq_refl eq_refl eq_refl eq_refl eq_refl)).
Defined.

(** The key of the description widget survives a generation. *)
Lemma session_other_keys_untouched_witness :
  str_eqb (lit "app_input") session_key = false
  /\ session_state (rt_more_rerun world_with_entry run_full_entry) !! lit "app_input"
     = session_state world_with_entry !! lit "app_input".
Proof.
  split; [reflexivity|].
  apply (session_other_keys_untouched sample_py_str sample_interp_msg
           sample_json_loads_more world_with_entry run_full_entry
           (lit "app_input")). reflexivity.
Defined.

(** A session with a good entry receives an entry that lacks keys. *)
Lemma unrenderable_list_replaces_stored_witness :
  session_state world_with_entry !! session_key = Some (VList [full_entry])
  /\ generation_outcome sample_json_loads run_half_entry
     = Ok (VDict [(session_key, VList [half_entry])])
  /\ session_state (rt_half_rerun world_with_entry run_half_entry) !! session_key
     = Some (VList [half_entry]).
Proof.
  split; [reflexivity|]. split; [reflexivity|].
  apply (unrenderable_list_replaces_stored sample_py_str sample_interp_msg
           sample_json_loads world_with_entry run_half_entry
           [(session_key, VList [half_entry])] (KeyError key_scenario));
    reflexivity.
Defined.

(** The service answers an array. *)
Lemma non_object_response_reported_witness :
  generation_outcome sample_json_loads_more run_array = Ok (VList [])
  /\ is_object (VList []) = false
  /\ session_state (rt_more_rerun world_with_entry run_array)
     = session_state world_with_entry.
Proof.
  split; [reflexivity|]. split; [reflexivity|].
  apply (non_object_response_reported sample_py_str sample_interp_msg
           sample_json_loads_more world_with_entry run_array (VList []));
    reflexivity.
Defined.

(** A generation with one entry, then the mitigations button. *)
Lemma mitigations_prompt_from_last_generation_witness :
  forallb well_formed_entry [full_entry] = true
  /\ calls (rt_more_rerun (rt_more_rerun new_session run_full_entry)
             run_mitigations_answered)
     = calls (rt_more_rerun new_session run_full_entry)
       ++ [mitigations_request run_mitigations_answered sample_threats_table].
Proof.
  split; [reflexivity|].
  exact (mitigations_prompt_from_last_generation sample_py_str sample_interp_msg
           sample_json_loads_more new_session run_full_entry
           run_mitigations_answered sample_object [full_entry]
           eq_refl eq_refl eq_refl eq_refl eq_refl eq_refl eq_refl eq_refl eq_refl).
Defined.

End MoreWitnesses.
